(** * otgorm: OpenTelemetry spans around the GORM callbacks

    A shallow embedding of the package [otgorm] ([callbacks.go] and the
    attribute converter) and the proofs of its specified properties.

    Layout: the external packages the code talks to come first, each in a
    module named after the Go package ([attribute], [codes], [context],
    [trace], [errors], [gorm], [fmt], and [slice] for Go's slices); then the
    package itself: the converter
    [CreateSpanAttribute], the settings record [callbacks] with its options,
    [RegisterCallbacks], and the hooks [before], [startTrace], [endTrace],
    [after] written in a state-and-panic monad over the objects the hooks
    reach through pointers. *)

From Stdlib Require Import ZArith SpecFloat.
From stdpp Require Import base tactics option list gmap strings pretty.

Local Open Scope string_scope.
Local Open Scope list_scope.
Local Open Scope nat_scope.

(** ** Go's numeric types

    A [w]-bit integer is a [Z]; a conversion between integer types keeps the
    low [w] bits and reads them in two's complement. *)

Module numeric.

Local Open Scope Z_scope.

Definition wrap_signed (w z : Z) : Z :=
  (z + 2 ^ (w - 1)) mod 2 ^ w - 2 ^ (w - 1).

Definition in_signed (w z : Z) : Prop := - 2 ^ (w - 1) <= z < 2 ^ (w - 1).
Definition in_unsigned (w z : Z) : Prop := 0 <= z < 2 ^ w.

(** [float32] and [float64] values are IEEE 754 data; [float64(x)] on a
    [float32] re-normalises the same datum in the binary64 format. *)
Definition float32 := spec_float.
Definition float64 := spec_float.

Definition float64_of_float32 (x : float32) : float64 :=
  match x with
  | S754_finite s m e => binary_round 53 1024 s m e
  | _ => x
  end.

End numeric.

(** ** Package [go.opentelemetry.io/otel/attribute] *)

Module attribute.

Inductive Type_ := INVALID | BOOL | INT64 | FLOAT64 | STRING.

(** A [Value] is a tagged datum; the zero [Value] has type [INVALID]. *)
Inductive Value :=
| InvalidValue
| BoolValue (v : bool)
| Int64Value (v : Z)
| Float64Value (v : numeric.float64)
| StringValue (v : string).

Definition Type_of (v : Value) : Type_ :=
  match v with
  | InvalidValue => INVALID
  | BoolValue _ => BOOL
  | Int64Value _ => INT64
  | Float64Value _ => FLOAT64
  | StringValue _ => STRING
  end.

Definition Key := string.

Record KeyValue := mkKeyValue { Key_ : Key; Value_ : Value }.

(** The zero [KeyValue], what a fresh array cell holds. *)
Definition zero : KeyValue := mkKeyValue EmptyString InvalidValue.

Definition Bool (k : string) (v : bool) : KeyValue := mkKeyValue k (BoolValue v).
Definition Int64 (k : string) (v : Z) : KeyValue := mkKeyValue k (Int64Value v).
(** [Int(k, v)] is [Int64(k, int64(v))]. *)
Definition Int (k : string) (v : Z) : KeyValue := Int64 k (numeric.wrap_signed 64 v).
Definition Float64 (k : string) (v : numeric.float64) : KeyValue :=
  mkKeyValue k (Float64Value v).
Definition String (k : string) (v : string) : KeyValue := mkKeyValue k (StringValue v).

(** [Key.String]: the method [func (k Key) String(v string) KeyValue]. *)
Definition Key_String (k : Key) (v : string) : KeyValue := mkKeyValue k (StringValue v).

End attribute.

(** ** Dynamically typed values ([interface{}])

    One constructor per dynamic type the converter's type switch names, the
    remaining basic integer types, the nil interface, and [VOther] for a
    value of any other type: it carries the name of the type and the text
    [fmt] prints for it under the verb [%s]. *)

Inductive any :=
| VNil
| VString (x : string)
| VBool (x : bool)
| VInt (x : Z)
| VInt8 (x : Z)
| VInt16 (x : Z)
| VInt32 (x : Z)
| VInt64 (x : Z)
| VUint (x : Z)
| VUint8 (x : Z)
| VUint16 (x : Z)
| VUint32 (x : Z)
| VUint64 (x : Z)
| VFloat32 (x : numeric.float32)
| VFloat64 (x : numeric.float64)
| VOther (type_name : string) (printed : string).

(** ** Package [fmt]: the verb [%s] *)

Module fmt.
Section Verbs.

(** [strconv.FormatFloat(f, 'g', -1, bitSize)]: the shortest decimal text of
    a float, as [fmt] prints floats under [%v]. *)
Variable FormatFloat : spec_float -> Z -> string.

(** [%!s(T=v)]: what [fmt] prints when the verb [%s] does not apply to
    a value of type [T]; [v] is the value's default text. *)
Definition bad_verb (T v : string) : string := "%!s(" +:+ T +:+ "=" +:+ v +:+ ")".

Definition verb_s (v : any) : string :=
  match v with
  | VNil => "%!s(<nil>)"
  | VString x => x
  | VBool x => bad_verb "bool" (if x then "true" else "false")
  | VInt x => bad_verb "int" (pretty x)
  | VInt8 x => bad_verb "int8" (pretty x)
  | VInt16 x => bad_verb "int16" (pretty x)
  | VInt32 x => bad_verb "int32" (pretty x)
  | VInt64 x => bad_verb "int64" (pretty x)
  | VUint x => bad_verb "uint" (pretty x)
  | VUint8 x => bad_verb "uint8" (pretty x)
  | VUint16 x => bad_verb "uint16" (pretty x)
  | VUint32 x => bad_verb "uint32" (pretty x)
  | VUint64 x => bad_verb "uint64" (pretty x)
  | VFloat32 x => bad_verb "float32" (FormatFloat x 32)
  | VFloat64 x => bad_verb "float64" (FormatFloat x 64)
  | VOther _ printed => printed
  end.

End Verbs.

(** [Sprintf] for a format with one verb between the literal texts [pre]
    and [post]; [operand] is the text the verb prints for its argument. *)
Definition Sprintf1 (pre operand post : string) : string :=
  pre +:+ operand +:+ post.

End fmt.

(** ** The attribute converter *)

Section Converter.

Local Open Scope Z_scope.

(** The width of [int] and [uint] on the target: 32 or 64. *)
Variable IntSize : Z.
Variable FormatFloat : spec_float -> Z -> string.

(** The values a Go variable of the dynamic type can hold. *)
Definition well_typed (v : any) : Prop :=
  match v with
  | VInt x => numeric.in_signed IntSize x
  | VInt8 x => numeric.in_signed 8 x
  | VInt16 x => numeric.in_signed 16 x
  | VInt32 x => numeric.in_signed 32 x
  | VInt64 x => numeric.in_signed 64 x
  | VUint x => numeric.in_unsigned IntSize x
  | VUint8 x => numeric.in_unsigned 8 x
  | VUint16 x => numeric.in_unsigned 16 x
  | VUint32 x => numeric.in_unsigned 32 x
  | VUint64 x => numeric.in_unsigned 64 x
  | _ => True
  end.

(** [int(x)]: conversion to the platform's [int]. *)
Definition int (x : Z) : Z := numeric.wrap_signed IntSize x.
(** [int64(x)]. *)
Definition int64 (x : Z) : Z := numeric.wrap_signed 64 x.

(** The statement after the type switch, reached by a case with an empty
    body and by a value no case matches. *)
Definition conversion_error (v : any) : attribute.KeyValue :=
  attribute.String "attribute.error"
    (fmt.Sprintf1 "couldn't convert " (fmt.verb_s FormatFloat v) " into KeyValue").

Definition CreateSpanAttribute (k : string) (v : any) : attribute.KeyValue :=
  match v with
  | VString x => conversion_error v
  | VBool x => attribute.Bool k x
  | VInt64 x => attribute.Int64 k x
  | VInt32 x => attribute.Int k (int x)
  | VInt x => attribute.Int k x
  | VFloat64 x => attribute.Float64 k x
  | VFloat32 x => attribute.Float64 k (numeric.float64_of_float32 x)
  | VUint x => attribute.Int k (int x)
  | VUint64 x => attribute.Int64 k (int64 x)
  | VUint32 x => attribute.Int k (int x)
  | _ => conversion_error v
  end.

End Converter.

(** ** Slices of [attribute.KeyValue]

    A slice is a window on a backing array: the array's address, the offset
    of the window, its length and its capacity. The arrays live in a heap,
    addressed by their index in it. Two slices on one array share its cells,
    and [append] writes in place while the capacity lasts. *)

Module slice.

Record t := mk { array : nat; offset : nat; len : nat; cap : nat }.

Abbreviation Heap := (list (list attribute.KeyValue)).

Definition cells (h : Heap) (a : nat) : list attribute.KeyValue :=
  default [] (h !! a).

(** The elements [s[0], ..., s[len(s)-1]]. *)
Definition elems (h : Heap) (s : t) : list attribute.KeyValue :=
  take (len s) (drop (offset s) (cells h (array s))).

(** What Go maintains for every slice: the window lies inside the array. *)
Definition valid (h : Heap) (s : t) : Prop :=
  len s ≤ cap s ∧ offset s + cap s ≤ length (cells h (array s)).

(** The literal [[]T{}]: no cells, so no array is ever read through it. *)
Definition empty : t := mk 0 0 0 0.

Section Append.

(** [growslice oldcap needed]: the capacity the runtime picks for the new
    array when [append] outgrows the old one; never less than [needed]
    cells are allocated. *)
Variable growslice : nat -> nat -> nat.

Definition append (s : t) (x : attribute.KeyValue) (h : Heap) : t * Heap :=
  let n := S (len s) in
  if decide (n ≤ cap s) then
    (mk (array s) (offset s) n (cap s),
     <[array s := <[offset s + len s := x]> (cells h (array s))]> h)
  else
    let c := (n `max` growslice (cap s) n) in
    (mk (length h) 0 n c,
     h ++ [elems h s ++ x :: replicate (c - n) attribute.zero]).

End Append.

End slice.

(** ** Package [go.opentelemetry.io/otel/codes] *)

Module codes.
Inductive Code := Unset | Error | Ok.
End codes.

(** ** Package [context] *)

Module context.

(** What a context binds to a key: a span handle, or anything else. *)
Inductive Binding := SpanHandle (id : nat) | Text (s : string).

Inductive Context :=
| Background
| WithValue (parent : Context) (key : string) (val : Binding).

(** [ctx.Value(key)]: the innermost binding of [key], nil without one. *)
Fixpoint Value (ctx : Context) (key : string) : option Binding :=
  match ctx with
  | Background => None
  | WithValue parent k val => if decide (k = key) then Some val else Value parent key
  end.

End context.

(** ** Package [go.opentelemetry.io/otel/trace]

    The tracing backend is modelled by what the adapter can observe of it:
    the calls made on tracers and spans, in order, and the handles of the
    spans it hands out. *)

Module trace.

Definition Span := nat.

Inductive SpanKind :=
| SpanKindUnspecified | SpanKindInternal | SpanKindServer
| SpanKindClient | SpanKindProducer | SpanKindConsumer.

Inductive SpanStartOption :=
| WithSpanKind (kind : SpanKind)
| WithAttributes (attrs : list attribute.KeyValue)
| WithNewRoot.

(** [GlobalTracer name] is [otel.Tracer(name)]. *)
Inductive Tracer := GlobalTracer (name : string) | CustomTracer (id : nat).

Inductive Event :=
| Start (t : Tracer) (ctx : context.Context) (spanName : string)
        (opts : list SpanStartOption) (span : Span)
| SetAttributes (span : Span) (kv : list attribute.KeyValue)
| SetStatus (span : Span) (code : codes.Code) (description : string)
| End_ (span : Span).

Record Backend := mkBackend { events : list Event; next_span : Span }.

Definition record (ev : Event) (b : Backend) : Backend :=
  mkBackend (events b ++ [ev]) (next_span b).

Definition currentSpanKey : string := "trace.currentSpanKey".

Definition ContextWithSpan (parent : context.Context) (span : Span) : context.Context :=
  context.WithValue parent currentSpanKey (context.SpanHandle span).

(** [t.Start(ctx, name, opts...)]: a new span, and [ctx] extended with it. *)
Definition Tracer_Start (t : Tracer) (ctx : context.Context) (spanName : string)
    (opts : list SpanStartOption) (b : Backend) : (context.Context * Span) * Backend :=
  let span := next_span b in
  ((ContextWithSpan ctx span, span),
   mkBackend (events b ++ [Start t ctx spanName opts span]) (S span)).

(** The span that performs no operations. The package never makes a call on
    it, it only compares it with nil, so the handle that stands for it does
    not matter. *)
Definition noopSpan : Span := 0.

(** [SpanFromContext(ctx)] as the library documents it: the span [ctx]
    carries, and the span that performs no operations when it carries
    none. The result is never nil. *)
Definition SpanFromContext (ctx : context.Context) : option Span :=
  match context.Value ctx currentSpanKey with
  | Some (context.SpanHandle id) => Some id
  | _ => Some noopSpan
  end.

End trace.

(** ** Package [errors] *)

Module errors.

(** An error is a package-level sentinel, compared by identity, some other
    error, or an error wrapping another ([Unwrap] gives [inner]). *)
Inductive error :=
| Sentinel (name : string)
| Plain (text : string)
| Wrap (text : string) (inner : error).

#[global] Instance error_eq_dec : EqDecision error.
Proof. solve_decision. Defined.

Fixpoint Is (err target : error) : bool :=
  if decide (err = target) then true
  else match err with
       | Wrap _ inner => Is inner target
       | _ => false
       end.

End errors.

(** ** Package [gorm.io/gorm]: what the hooks read and write of a [*gorm.DB] *)

Module gorm.

(** A value kept in [Statement.Settings], by what the hooks' type
    assertions can tell of it: it implements [context.Context], it
    implements [trace.Span], or it is some other value. *)
Inductive value :=
| OfContext (ctx : context.Context)
| OfSpan (span : trace.Span)
| OfAny (v : any).

Record Statement := mkStatement {
  Table : string;
  SQL : string;                       (* the text held by the [strings.Builder] *)
  Vars : list any;                    (* the values bound to the placeholders *)
  Settings : gmap string value
}.

Record DB := mkDB {
  Statement_ : Statement;
  Error : option errors.error         (* [None] is the nil error *)
}.

Definition ErrRecordNotFound : errors.error := errors.Sentinel "gorm.ErrRecordNotFound".

(** [db.Get(key)]: the value and whether the key is present. *)
Definition Get (db : DB) (key : string) : value * bool :=
  match Settings (Statement_ db) !! key with
  | Some v => (v, true)
  | None => (OfAny VNil, false)
  end.

(** [db.Set(key, v)] on the instance a callback receives: stores in place. *)
Definition Set_ (db : DB) (key : string) (v : value) : DB :=
  let st := Statement_ db in
  mkDB (mkStatement (Table st) (SQL st) (Vars st) (<[key := v]> (Settings st))) (Error db).

(** The four callback processors and the anchor of a registration. *)
Inductive processor := Create | Query | Update | Delete.
Inductive position := Before (anchor : string) | After (anchor : string).

End gorm.

(** ** Package [otgorm]: settings and options *)

Definition TableKey : attribute.Key := "gorm.table".
Definition QueryKey : attribute.Key := "gorm.query".

(** Interface-typed fields may be nil: [tracer] is [None] for the nil
    [trace.Tracer]. [spanOptions] is only ever read as a whole, so its
    contents stand for the slice. *)
Record callbacks := mkCallbacks {
  allowRoot : bool;
  query : bool;
  table : bool;
  defaultAttributes : slice.t;
  tracer : option trace.Tracer;
  spanOptions : list trace.SpanStartOption
}.

Definition contextScopeKey : string := "_otContext".
Definition spanScopeKey : string := "_otSpan".

(** A function on [*callbacks] is the update it performs on the pointee. *)
Definition OptionFunc := callbacks -> callbacks.

Definition WithSpanOptions (opts : list trace.SpanStartOption) : OptionFunc :=
  fun c => mkCallbacks (allowRoot c) (query c) (table c) (defaultAttributes c)
                       (tracer c) opts.

Definition WithTracer (tracer' : option trace.Tracer) : OptionFunc :=
  fun c => mkCallbacks (allowRoot c) (query c) (table c) (defaultAttributes c)
                       tracer' (spanOptions c).

(** The types that implement the interface [Option]. *)
Inductive Option :=
| OfOptionFunc (fn : OptionFunc)
| AllowRoot (a : bool)
| Query (q : bool)
| Table (t : bool)
| DefaultAttributes (d : slice.t).

Definition apply (o : Option) (c : callbacks) : callbacks :=
  match o with
  | OfOptionFunc fn => fn c
  | AllowRoot a =>
      mkCallbacks a (query c) (table c) (defaultAttributes c) (tracer c) (spanOptions c)
  | Query q =>
      mkCallbacks (allowRoot c) q (table c) (defaultAttributes c) (tracer c) (spanOptions c)
  | Table t =>
      mkCallbacks (allowRoot c) (query c) t (defaultAttributes c) (tracer c) (spanOptions c)
  | DefaultAttributes d =>
      mkCallbacks (allowRoot c) (query c) (table c) d (tracer c) (spanOptions c)
  end.

(** The eight methods of [*callbacks] handed to GORM. *)
Inductive method :=
| beforeCreate | afterCreate | beforeQuery | afterQuery
| beforeUpdate | afterUpdate | beforeDelete | afterDelete.

(** One [Register] call on a callback processor. *)
Record registration := mkRegistration {
  reg_processor : gorm.processor;
  reg_position : gorm.position;
  reg_name : string;
  reg_fn : method
}.

(** The struct literal of [RegisterCallbacks]: every field zero but
    [defaultAttributes]. *)
Definition callbacks_literal : callbacks :=
  mkCallbacks false false false slice.empty None [].

Definition defaultOpts : list Option :=
  [ OfOptionFunc (WithTracer (Some (trace.GlobalTracer "otgorm")));
    OfOptionFunc (WithSpanOptions [trace.WithSpanKind trace.SpanKindInternal]) ].

(** [RegisterCallbacks(db, opts...)]: the settings the hooks share, and the
    registrations made on [db], in order. *)
Definition RegisterCallbacks (opts : list Option) : callbacks * list registration :=
  let c := foldl (fun c opt => apply opt c) callbacks_literal (defaultOpts ++ opts) in
  (c,
   [ mkRegistration gorm.Create (gorm.Before "gorm:create") "before_create" beforeCreate;
     mkRegistration gorm.Create (gorm.After "gorm:create") "after_create" afterCreate;
     mkRegistration gorm.Query (gorm.Before "gorm:query") "before_query" beforeQuery;
     mkRegistration gorm.Query (gorm.After "gorm:query") "after_query" afterQuery;
     mkRegistration gorm.Update (gorm.Before "gorm:update") "before_update" beforeUpdate;
     mkRegistration gorm.Update (gorm.After "gorm:update") "after_update" afterUpdate;
     mkRegistration gorm.Delete (gorm.Before "gorm:delete") "before_delete" beforeDelete;
     mkRegistration gorm.Delete (gorm.After "gorm:delete") "after_delete" afterDelete ]).

(** ** The hooks

    A hook runs on the objects it reaches through pointers: the scope it is
    called with, the receiver [c], the arrays behind the attribute slices,
    and the tracing backend. It returns or panics; what it wrote before a
    panic stays written. *)

Record Env := mkEnv {
  scope : gorm.DB;
  c_ : callbacks;
  heap : slice.Heap;
  tracing : trace.Backend
}.

Inductive result (A : Type) : Type :=
| Returned (a : A)
| Panicked (msg : string).
Arguments Returned {A} a.
Arguments Panicked {A} msg.

Definition M (A : Type) : Type := Env -> result A * Env.

#[global] Instance M_ret : MRet M := fun A a e => (Returned a, e).
#[global] Instance M_bind : MBind M := fun A B k m e =>
  match m e with
  | (Returned a, e') => k a e'
  | (Panicked msg, e') => (Panicked msg, e')
  end.

Definition panic {A : Type} (msg : string) : M A := fun e => (Panicked msg, e).

Definition get_scope : M gorm.DB := fun e => (Returned (scope e), e).
Definition get_c : M callbacks := fun e => (Returned (c_ e), e).

(** [scope.Set(key, v)]. *)
Definition scope_Set (key : string) (v : gorm.value) : M unit := fun e =>
  (Returned (), mkEnv (gorm.Set_ (scope e) key v) (c_ e) (heap e) (tracing e)).

(** A call on a span or a tracer, recorded by the backend. *)
Definition emit (ev : trace.Event) : M unit := fun e =>
  (Returned (), mkEnv (scope e) (c_ e) (heap e) (trace.record ev (tracing e))).

Definition nil_dereference : string :=
  "runtime error: invalid memory address or nil pointer dereference".

(** [tracer.Start(ctx, name, opts...)] on an interface value: a nil tracer
    has no method to call. *)
Definition tracer_Start (t : option trace.Tracer) (ctx : context.Context)
    (spanName : string) (opts : list trace.SpanStartOption)
    : M (context.Context * trace.Span) :=
  match t with
  | None => panic nil_dereference
  | Some t => fun e =>
      let '(r, b) := trace.Tracer_Start t ctx spanName opts (tracing e) in
      (Returned r, mkEnv (scope e) (c_ e) (heap e) b)
  end.

(** [rctx.(context.Context)] and [rspan.(trace.Span)] in their two-value
    form: the asserted value (nil when the assertion fails) and [ok]. *)
Definition assert_Context (v : gorm.value) : option context.Context * bool :=
  match v with
  | gorm.OfContext ctx => (Some ctx, true)
  | _ => (None, false)
  end.

Definition assert_Span (v : gorm.value) : option trace.Span * bool :=
  match v with
  | gorm.OfSpan span => (Some span, true)
  | _ => (None, false)
  end.

Section Hooks.

(** [trace.SpanFromContext]: the span a context carries; the result is an
    interface value, [None] when it is nil. *)
Variable SpanFromContext : context.Context -> option trace.Span.

Variable growslice : nat -> nat -> nat.

(** [append(s, x)] on the heap of the environment. *)
Definition appendM (s : slice.t) (x : attribute.KeyValue) : M slice.t := fun e =>
  let '(s', h') := slice.append growslice s x (heap e) in
  (Returned s', mkEnv (scope e) (c_ e) h' (tracing e)).

(** [span.SetAttributes(s...)]: the span is handed the elements of [s]. *)
Definition span_SetAttributes (span : trace.Span) (s : slice.t) : M unit := fun e =>
  emit (trace.SetAttributes span (slice.elems (heap e) s)) e.

Definition startTrace (ctx : option context.Context) (operation : string)
    : M context.Context :=
  let ctx := match ctx with None => context.Background | Some ctx => ctx end in
  let parentSpan := SpanFromContext ctx in
  c ← get_c;
  if bool_decide (parentSpan = None) && negb (allowRoot c) then mret ctx
  else
    '(ctx, span) ← tracer_Start (tracer c) ctx
                      (fmt.Sprintf1 "gorm:" operation EmptyString) (spanOptions c);
    _ ← scope_Set spanScopeKey (gorm.OfSpan span);
    mret ctx.

Definition before (operation : string) : M unit :=
  scope ← get_scope;
  let '(rctx, _) := gorm.Get scope contextScopeKey in
  let '(ctx, ok) := assert_Context rctx in
  let ctx := if negb ok || bool_decide (ctx = None)
             then Some context.Background else ctx in
  ctx ← startTrace ctx operation;
  scope_Set contextScopeKey (gorm.OfContext ctx).

Definition endTrace : M unit :=
  scope ← get_scope;
  let '(rspan, ok) := gorm.Get scope spanScopeKey in
  if negb ok then mret ()
  else
    match assert_Span rspan with
    | (Some span, true) =>
        c ← get_c;
        let attributes := defaultAttributes c in
        attributes ←
          (if table c
           then appendM attributes
                  (attribute.Key_String TableKey (gorm.Table (gorm.Statement_ scope)))
           else mret attributes);
        attributes ←
          (if query c
           then appendM attributes
                  (attribute.Key_String QueryKey (gorm.SQL (gorm.Statement_ scope)))
           else mret attributes);
        _ ← span_SetAttributes span attributes;
        _ ← match gorm.Error scope with
            | Some err =>
                let '(code, message) :=
                  if errors.Is err gorm.ErrRecordNotFound
                  then (codes.Error, "not found")
                  else (codes.Unset, "unknown") in
                emit (trace.SetStatus span code message)
            | None => mret ()
            end;
        emit (trace.End_ span)
    | _ => mret ()
    end.

Definition after : M unit := endTrace.

Definition call (m : method) : M unit :=
  match m with
  | beforeCreate => before "create"
  | afterCreate => after
  | beforeQuery => before "query"
  | afterQuery => after
  | beforeUpdate => before "update"
  | afterUpdate => after
  | beforeDelete => before "delete"
  | afterDelete => after
  end.

(** What happens to an environment over time: GORM invokes a registered
    hook, or GORM itself works on the scope between two hooks (it runs the
    statement, records an error, or turns to the scope of another
    operation). *)
Inductive action :=
| Invoke (m : method)
| Host (f : gorm.DB -> gorm.DB).

Definition perform (a : action) (e : Env) : Env :=
  match a with
  | Invoke m => snd (call m e)
  | Host f => mkEnv (f (scope e)) (c_ e) (heap e) (tracing e)
  end.

Definition run (acts : list action) (e : Env) : Env :=
  foldl (fun e a => perform a e) e acts.

End Hooks.

(** Unfolds the monad and the primitive actions, leaving the state passing
    in the open. *)
Ltac unfold_M :=
  unfold mbind, M_bind, mret, M_ret, get_scope, get_c, scope_Set, panic,
    span_SetAttributes, emit, appendM, tracer_Start, trace.Tracer_Start, trace.record in *.

(** ** Vocabulary of the specification *)

(** The cases of the converter's type switch. *)
Definition has_case (v : any) : bool :=
  match v with
  | VString _ | VBool _ | VInt64 _ | VInt32 _ | VInt _ | VFloat64 _
  | VFloat32 _ | VUint _ | VUint64 _ | VUint32 _ => true
  | _ => false
  end.

(** The mapping table of the specification, for booleans, integers and
    floats: the attribute type that matches the value's semantic type. *)
Definition mapped_type (v : any) : option attribute.Type_ :=
  match v with
  | VBool _ => Some attribute.BOOL
  | VInt _ | VInt32 _ | VInt64 _ | VUint _ | VUint32 _ | VUint64 _ =>
      Some attribute.INT64
  | VFloat32 _ | VFloat64 _ => Some attribute.FLOAT64
  | _ => None
  end.

(** The number an integer value stands for. *)
Definition integer_value (v : any) : option Z :=
  match v with
  | VInt x | VInt8 x | VInt16 x | VInt32 x | VInt64 x
  | VUint x | VUint8 x | VUint16 x | VUint32 x | VUint64 x => Some x
  | _ => None
  end.

(** The width of the signed type an integer passes through on its way to
    the attribute: [int] for what goes through [attribute.Int], [int64]
    for what goes through [attribute.Int64]. *)
Definition target_width (IntSize : Z) (v : any) : Z :=
  match v with
  | VInt _ | VInt32 _ | VUint _ | VUint32 _ => IntSize
  | _ => 64%Z
  end.

(** The target representation allows the number [z]. *)
Definition target_allows (IntSize : Z) (v : any) (z : Z) : Prop :=
  numeric.in_signed (target_width IntSize v) z.

(** A substring test for the message of the error attribute. *)
Definition contains (s part : string) : Prop :=
  ∃ pre post : string, s = pre +:+ part +:+ post.

(** A call of one of the option constructors the package exports. *)
Inductive option_call :=
| CallWithSpanOptions (opts : list trace.SpanStartOption)
| CallWithTracer (t : option trace.Tracer)
| CallAllowRoot (a : bool)
| CallQuery (q : bool)
| CallTable (t : bool)
| CallDefaultAttributes (d : slice.t).

Definition to_Option (call : option_call) : Option :=
  match call with
  | CallWithSpanOptions opts => OfOptionFunc (WithSpanOptions opts)
  | CallWithTracer t => OfOptionFunc (WithTracer t)
  | CallAllowRoot a => AllowRoot a
  | CallQuery q => Query q
  | CallTable t => Table t
  | CallDefaultAttributes d => DefaultAttributes d
  end.

(** What a call gives to each field of the settings, if it touches it. *)
Definition touch_spanOptions (call : option_call) : option (list trace.SpanStartOption) :=
  match call with CallWithSpanOptions opts => Some opts | _ => None end.
Definition touch_tracer (call : option_call) : option (option trace.Tracer) :=
  match call with CallWithTracer t => Some t | _ => None end.
Definition touch_allowRoot (call : option_call) : option bool :=
  match call with CallAllowRoot a => Some a | _ => None end.
Definition touch_query (call : option_call) : option bool :=
  match call with CallQuery q => Some q | _ => None end.
Definition touch_table (call : option_call) : option bool :=
  match call with CallTable t => Some t | _ => None end.
Definition touch_defaultAttributes (call : option_call) : option slice.t :=
  match call with CallDefaultAttributes d => Some d | _ => None end.

(** The value of the last call in the sequence that touches a field, and
    the built-in default when no call does. *)
Definition last_touch {A : Type} (touch : option_call -> option A) (builtin : A)
    (calls : list option_call) : A :=
  default builtin (last (omap touch calls)).

(** The context [before] works with: the one kept in the scope, or the
    background context when the slot holds no context. *)
Definition retrieved_context (sc : gorm.DB) : context.Context :=
  match gorm.Settings (gorm.Statement_ sc) !! contextScopeKey with
  | Some (gorm.OfContext ctx) => ctx
  | _ => context.Background
  end.

(** The span slot of the per-call scope state. *)
Definition span_slot (sc : gorm.DB) : option gorm.value :=
  gorm.Settings (gorm.Statement_ sc) !! spanScopeKey.

(** The status the specification asks for, as calls on the span. *)
Definition expected_status (span : trace.Span) (err : option errors.error)
    : list trace.Event :=
  match err with
  | None => []
  | Some err =>
      if errors.Is err gorm.ErrRecordNotFound
      then [trace.SetStatus span codes.Error "not found"]
      else [trace.SetStatus span codes.Unset "unknown"]
  end.

(** The attribute set the specification asks for. *)
Definition expected_attributes (e : Env) : list attribute.KeyValue :=
  slice.elems (heap e) (defaultAttributes (c_ e))
  ++ (if table (c_ e)
      then [attribute.mkKeyValue "gorm.table"
              (attribute.StringValue (gorm.Table (gorm.Statement_ (scope e))))]
      else [])
  ++ (if query (c_ e)
      then [attribute.mkKeyValue "gorm.query"
              (attribute.StringValue (gorm.SQL (gorm.Statement_ (scope e))))]
      else []).

(** The spans a run of calls ends, one entry per call of [End]; the
    attribute sets it attaches; the calls in it that set a status. *)
Definition ended (evs : list trace.Event) : list trace.Span :=
  omap (fun ev => match ev with trace.End_ span => Some span | _ => None end) evs.

Definition attached (evs : list trace.Event) : list (list attribute.KeyValue) :=
  omap (fun ev => match ev with trace.SetAttributes _ kv => Some kv | _ => None end) evs.

Definition statuses (evs : list trace.Event) : list trace.Event :=
  omap (fun ev => match ev with
                  | trace.SetStatus _ _ _ => Some ev
                  | _ => None
                  end) evs.

(** The calls the backend has recorded. *)
Definition calls_of (e : Env) : list trace.Event := trace.events (tracing e).

(** The two conditional appends of [endTrace] by themselves: the slice
    handed to [SetAttributes] and the heap the appends leave. *)
Definition built_attributes (growslice : nat -> nat -> nat) (e : Env)
    : slice.t * slice.Heap :=
  let '(s1, h1) :=
    if table (c_ e)
    then slice.append growslice (defaultAttributes (c_ e))
           (attribute.Key_String TableKey (gorm.Table (gorm.Statement_ (scope e))))
           (heap e)
    else (defaultAttributes (c_ e), heap e) in
  if query (c_ e)
  then slice.append growslice s1
         (attribute.Key_String QueryKey (gorm.SQL (gorm.Statement_ (scope e)))) h1
  else (s1, h1).

(** The window of [t] ends before the cell an [append] to [s] writes, or
    the two slices are on different arrays. *)
Definition below (t s : slice.t) : Prop :=
  slice.array t ≠ slice.array s
  ∨ slice.offset t + slice.len t ≤ slice.offset s + slice.len s.

(** The spans a run of calls starts, one entry per call of [Start]. *)
Definition started (evs : list trace.Event) : list trace.Span :=
  omap (fun ev => match ev with trace.Start _ _ _ _ span => Some span | _ => None end) evs.

(** The methods that run [before], and those that run [after]. *)
Definition is_before (m : method) : bool :=
  match m with
  | beforeCreate | beforeQuery | beforeUpdate | beforeDelete => true
  | _ => false
  end.

Definition is_after (m : method) : bool := negb (is_before m).

(** How many of the actions invoke a method picked by [p]. *)
Definition invokes (p : method -> bool) (a : action) : bool :=
  match a with Invoke m => p m | Host _ => false end.

Definition invocations (p : method -> bool) (acts : list action) : nat :=
  length (filter (fun a => invokes p a = true) acts).

(** The name GORM gives the operation of a callback processor. *)
Definition processor_name (p : gorm.processor) : string :=
  match p with
  | gorm.Create => "create"
  | gorm.Query => "query"
  | gorm.Update => "update"
  | gorm.Delete => "delete"
  end.

(** The path of [startTrace] that asks the tracer for a span. *)
Definition starts_span (SpanFromContext : context.Context -> option trace.Span)
    (e : Env) : Prop :=
  allowRoot (c_ e) = true ∨ is_Some (SpanFromContext (retrieved_context (scope e))).

(** What an unsigned [w]-bit number reads as after conversion to the signed
    type of the same width. *)
Definition reinterpret_signed (w x : Z) : Z :=
  if (x <? 2 ^ (w - 1))%Z then x else (x - 2 ^ w)%Z.

(** One operation as GORM runs it: it makes the scope of the operation,
    invokes the before hook, runs the statement, invokes the after hook. *)
Record operation_run := mkOperationRun {
  run_scope : gorm.DB;
  run_before : method;
  run_statement : gorm.DB -> gorm.DB;
  run_after : method
}.

Definition operation_actions (o : operation_run) : list action :=
  [ Host (fun _ => run_scope o); Invoke (run_before o);
    Host (run_statement o); Invoke (run_after o) ].

(** The discipline of GORM the hooks rely on: the scope of an operation
    starts without a span, the hooks are a before and an after hook, and
    running the statement keeps the settings of the scope. *)
Definition disciplined (o : operation_run) : Prop :=
  span_slot (run_scope o) = None
  ∧ is_before (run_before o) = true
  ∧ is_after (run_after o) = true
  ∧ ∀ db, gorm.Settings (gorm.Statement_ (run_statement o db))
          = gorm.Settings (gorm.Statement_ db).

(** The field of the settings an option constructor writes. *)
Inductive field :=
| FieldSpanOptions | FieldTracer | FieldAllowRoot | FieldQuery | FieldTable
| FieldDefaultAttributes.

Definition field_of (call : option_call) : field :=
  match call with
  | CallWithSpanOptions _ => FieldSpanOptions
  | CallWithTracer _ => FieldTracer
  | CallAllowRoot _ => FieldAllowRoot
  | CallQuery _ => FieldQuery
  | CallTable _ => FieldTable
  | CallDefaultAttributes _ => FieldDefaultAttributes
  end.

(** The text of a bound value inside a rendered statement. *)
Definition spec_literal (FormatFloat : spec_float -> Z -> string) (v : any) : string :=
  match v with
  | VNil => "NULL"
  | VString x => "'" +:+ x +:+ "'"
  | VBool x => if x then "true" else "false"
  | VInt x | VInt8 x | VInt16 x | VInt32 x | VInt64 x
  | VUint x | VUint8 x | VUint16 x | VUint32 x | VUint64 x => pretty x
  | VFloat32 x => FormatFloat x 32%Z
  | VFloat64 x => FormatFloat x 64%Z
  | VOther _ printed => "'" +:+ printed +:+ "'"
  end.

(** The character [?], code 63, that stands for a bound parameter. *)
Definition placeholder : Ascii.ascii := Ascii.ascii_of_nat 63.

(** Each placeholder of [sql] replaced, in order, by the next text. *)
Fixpoint materialize (sql : string) (texts : list string) : string :=
  match sql with
  | EmptyString => EmptyString
  | String c rest =>
      if Ascii.eqb c placeholder
      then match texts with
           | text :: texts => text +:+ materialize rest texts
           | [] => String c (materialize rest [])
           end
      else String c (materialize rest texts)
  end.

(** The rendered query in the words of the specification: the statement
    with its bound parameters materialised, not placeholders. *)
Definition spec_rendered_query (FormatFloat : spec_float -> Z -> string)
    (st : gorm.Statement) : string :=
  materialize (gorm.SQL st) (spec_literal FormatFloat <$> gorm.Vars st).

(** The environment with other values bound to the placeholders of its
    statement. *)
Definition with_vars (vars : list any) (e : Env) : Env :=
  let st := gorm.Statement_ (scope e) in
  mkEnv (gorm.mkDB (gorm.mkStatement (gorm.Table st) (gorm.SQL st) vars (gorm.Settings st))
           (gorm.Error (scope e)))
    (c_ e) (heap e) (tracing e).

(** ** Concrete environments

    Inputs on which the definitions are run, with the tracing library's own
    [trace.SpanFromContext]: a runtime that doubles capacities, and a scope
    for a statement on the table "users". *)

Definition sample_growslice (oldcap needed : nat) : nat := 2 * oldcap.

Definition sample_FormatFloat (f : spec_float) (bitSize : Z) : string := EmptyString.

Definition sample_scope (settings : gmap string gorm.value)
    (err : option errors.error) : gorm.DB :=
  gorm.mkDB (gorm.mkStatement "users" "SELECT * FROM users" [] settings) err.

Definition sample_env (settings : gmap string gorm.value)
    (err : option errors.error) (opts : list Option) (h : slice.Heap) : Env :=
  mkEnv (sample_scope settings err) (fst (RegisterCallbacks opts)) h
    (trace.mkBackend [] 0).

(** An insert with one bound parameter, after [before] has put span 7 in
    the scope, with query recording on. *)
Definition sample_insert : gorm.Statement :=
  gorm.mkStatement "users" "INSERT INTO users (name) VALUES (?)" [VString "ada"]
    {[ spanScopeKey := gorm.OfSpan 7 ]}.

Definition sample_insert_env : Env :=
  mkEnv (gorm.mkDB sample_insert None) (fst (RegisterCallbacks [Query true])) []
    (trace.mkBackend [] 0).

(** A default attribute in an array with room for two more. *)
Definition sample_default : attribute.KeyValue := attribute.String "service" "shop".
Definition sample_heap : slice.Heap := [[sample_default; attribute.zero; attribute.zero]].
Definition sample_slice : slice.t := slice.mk 0 0 1 3.

(** * Properties of the converter *)

Section ConverterProperties.

Local Open Scope Z_scope.

Variable IntSize : Z.
Variable FormatFloat : spec_float -> Z -> string.

Lemma wrap_signed_id (w z : Z) :
  0 < w -> numeric.in_signed w z -> numeric.wrap_signed w z = z.
Proof.
  unfold numeric.in_signed, numeric.wrap_signed. intros Hw Hz.
  assert (Hp : 2 ^ w = 2 * 2 ^ (w - 1)).
  { replace w with (Z.succ (w - 1)) at 1 by lia. apply Z.pow_succ_r. lia. }
  rewrite Z.mod_small; lia.
Qed.

Lemma in_signed_mono (w w' z : Z) :
  0 < w -> w <= w' -> numeric.in_signed w z -> numeric.in_signed w' z.
Proof.
  unfold numeric.in_signed. intros Hw Hle Hz.
  assert (2 ^ (w - 1) <= 2 ^ (w' - 1)) by (apply Z.pow_le_mono_r; lia).
  lia.
Qed.

Lemma string_length_app (s1 s2 : string) :
  String.length (s1 +:+ s2) = (String.length s1 + String.length s2)%nat.
Proof. induction s1 as [|a s1 IH]; simpl; [done | by rewrite IH]. Qed.

(** C2: a string value gets no string attribute of its own: the empty
    [case string] leaves the switch, and the result is the conversion-error
    attribute, with the string in its message. *)
Theorem string_falls_through (k s : string) :
  CreateSpanAttribute IntSize FormatFloat k (VString s)
    = attribute.String "attribute.error"
        ("couldn't convert " +:+ s +:+ " into KeyValue")
  ∧ CreateSpanAttribute IntSize FormatFloat k (VString s) ≠ attribute.String k s.
Proof.
  split; [reflexivity |].
  cbn [CreateSpanAttribute conversion_error fmt.verb_s].
  unfold attribute.String. intros [= _ Hv].
  apply (f_equal String.length) in Hv. unfold fmt.Sprintf1 in Hv.
  rewrite !string_length_app in Hv. simpl in Hv. lia.
Qed.

Lemma signed_kinds_allowed (v : any) (z : Z) :
  IntSize = 32 ∨ IntSize = 64 ->
  well_typed IntSize v ->
  (∃ x, v = VInt x ∨ v = VInt32 x ∨ v = VInt64 x) ->
  integer_value v = Some z ->
  target_allows IntSize v z.
Proof.
  intros HS Hwt [x [-> | [-> | ->]]] [= <-]; unfold target_allows; simpl in *;
    try assumption.
  apply (in_signed_mono 32); [lia | lia | assumption].
Qed.

(** C4: on booleans, integers and floats, the attribute has the key it was
    asked for and the type of the specification's mapping table; a boolean
    and a float64 keep their value, a float32 is widened, and an integer
    keeps its value when the signed type it is converted to can hold it,
    which it always can for the signed kinds. *)
Theorem attribute_type_matches (k : string) (v : any) (T : attribute.Type_) :
  IntSize = 32 ∨ IntSize = 64 ->
  well_typed IntSize v ->
  mapped_type v = Some T ->
  let kv := CreateSpanAttribute IntSize FormatFloat k v in
  attribute.Key_ kv = k
  ∧ attribute.Type_of (attribute.Value_ kv) = T
  ∧ (∀ b, v = VBool b -> attribute.Value_ kv = attribute.BoolValue b)
  ∧ (∀ z, integer_value v = Some z -> target_allows IntSize v z ->
          attribute.Value_ kv = attribute.Int64Value z)
  ∧ (∀ z, (∃ x, v = VInt x ∨ v = VInt32 x ∨ v = VInt64 x) ->
          integer_value v = Some z ->
          attribute.Value_ kv = attribute.Int64Value z)
  ∧ (∀ x, v = VFloat64 x -> attribute.Value_ kv = attribute.Float64Value x)
  ∧ (∀ x, v = VFloat32 x ->
          attribute.Value_ kv
            = attribute.Float64Value (numeric.float64_of_float32 x)).
Proof.
  intros HS Hwt HT kv.
  assert (Hint : ∀ z, integer_value v = Some z -> target_allows IntSize v z ->
                      attribute.Value_ kv = attribute.Int64Value z).
  { intros z Hz Hal. subst kv. unfold target_allows in Hal.
    destruct v; try discriminate; injection Hz as ->; simpl in *;
      unfold attribute.Int, int, int64; simpl; f_equal;
      rewrite ?(wrap_signed_id IntSize z) by (assumption || lia);
      try reflexivity;
      apply wrap_signed_id; try lia; try assumption;
      apply (in_signed_mono IntSize); (assumption || lia). }
  split; [| split; [| split; [| split; [| split; [| split]]]]].
  - subst kv. destruct v; try discriminate; reflexivity.
  - subst kv. destruct v; try discriminate; simpl in *; congruence.
  - intros b ->. reflexivity.
  - exact Hint.
  - intros z Hk Hz. apply Hint; [assumption |].
    by apply signed_kinds_allowed.
  - intros x ->. reflexivity.
  - intros x ->. reflexivity.
Qed.

(** C5: a value whose type the switch has no case for gets the attribute
    under the key "attribute.error"; its value is the string made of the
    fixed words around the text [%s] prints for the value. The converter is
    a total function: there is no input on which it fails to return. *)
Theorem unsupported_gives_error_attribute (k : string) (v : any) :
  has_case v = false ->
  let kv := CreateSpanAttribute IntSize FormatFloat k v in
  attribute.Key_ kv = "attribute.error"
  ∧ attribute.Type_of (attribute.Value_ kv) = attribute.STRING
  ∧ ∃ msg : string,
      attribute.Value_ kv = attribute.StringValue msg
      ∧ msg = "couldn't convert " +:+ fmt.verb_s FormatFloat v +:+ " into KeyValue"
      ∧ contains msg (fmt.verb_s FormatFloat v).
Proof.
  intros Hc kv.
  assert (Hkv : kv = conversion_error FormatFloat v).
  { subst kv. destruct v; try discriminate; reflexivity. }
  rewrite Hkv. split; [reflexivity | split; [reflexivity |]].
  eexists. split; [reflexivity | split; [reflexivity |]].
  by exists "couldn't convert ", " into KeyValue".
Qed.

End ConverterProperties.

Lemma attribute_type_matches_witness :
  let v := VUint32 4000000000 in
  well_typed 64 v ∧ mapped_type v = Some attribute.INT64
  ∧ CreateSpanAttribute 64 sample_FormatFloat "rows" v = attribute.Int64 "rows" 4000000000.
Proof.
  assert (Hwt : well_typed 64 (VUint32 4000000000)).
  { unfold well_typed, numeric.in_unsigned. lia. }
  split; [exact Hwt | split; [reflexivity |]].
  pose proof (attribute_type_matches 64 sample_FormatFloat "rows" (VUint32 4000000000)
                attribute.INT64 (or_intror eq_refl) Hwt eq_refl) as (Hk & _ & _ & Hz & _).
  specialize (Hz 4000000000%Z eq_refl).
  destruct (CreateSpanAttribute 64 sample_FormatFloat "rows" (VUint32 4000000000)) as [k' v'].
  simpl in Hk, Hz. unfold attribute.Int64. f_equal; [exact Hk |].
  apply Hz. unfold target_allows, numeric.in_signed. simpl. lia.
Defined.

Lemma unsupported_gives_error_attribute_witness :
  has_case (VInt8 (-5)) = false
  ∧ attribute.Key_ (CreateSpanAttribute 64 sample_FormatFloat "rows" (VInt8 (-5)))
    = "attribute.error".
Proof.
  split; [reflexivity |].
  exact (proj1 (unsupported_gives_error_attribute 64 sample_FormatFloat "rows"
                  (VInt8 (-5)) eq_refl)).
Defined.

(** * Properties of the options *)

Section OptionProperties.

Lemma last_touch_snoc {A : Type} (touch : option_call -> option A) (builtin : A)
    (calls : list option_call) (call : option_call) :
  last_touch touch builtin (calls ++ [call])
  = match touch call with
    | Some a => a
    | None => last_touch touch builtin calls
    end.
Proof.
  unfold last_touch. rewrite omap_app, last_app. simpl.
  by destruct (touch call).
Qed.

(** C6: after [RegisterCallbacks] has applied the built-in defaults and
    then the caller's options in order, every field of the settings holds
    what the last option touching it gave, and the built-in default when
    no option touched it: the global tracer named "otgorm", the span kind
    internal, false for the three flags, and the empty attribute list. *)
Theorem options_last_wins (calls : list option_call) :
  let c := fst (RegisterCallbacks (to_Option <$> calls)) in
  tracer c = last_touch touch_tracer (Some (trace.GlobalTracer "otgorm")) calls
  ∧ spanOptions c
    = last_touch touch_spanOptions [trace.WithSpanKind trace.SpanKindInternal] calls
  ∧ allowRoot c = last_touch touch_allowRoot false calls
  ∧ query c = last_touch touch_query false calls
  ∧ table c = last_touch touch_table false calls
  ∧ defaultAttributes c = last_touch touch_defaultAttributes slice.empty calls
  ∧ ∀ h : slice.Heap, slice.elems h slice.empty = [].
Proof.
  simpl. induction calls as [| call calls IH] using rev_ind.
  - repeat split; reflexivity.
  - destruct IH as (Ht & Hs & Ha & Hq & Hb & Hd & He).
    rewrite fmap_app. simpl. rewrite foldl_snoc.
    rewrite !last_touch_snoc.
    simpl in Ht, Hs, Ha, Hq, Hb, Hd.
    destruct call; simpl; repeat split; assumption || reflexivity.
Qed.

End OptionProperties.

(** * Properties of [append] on slices *)

Section SliceProperties.

Variable growslice : nat -> nat -> nat.

Implicit Types (h : slice.Heap) (s t : slice.t) (x : attribute.KeyValue).

Lemma cells_insert_eq h a (l : list attribute.KeyValue) :
  a < length h -> slice.cells (<[a := l]> h) a = l.
Proof. intros Ha. unfold slice.cells. by rewrite list_lookup_insert_eq. Qed.

Lemma cells_insert_ne h a b (l : list attribute.KeyValue) :
  a ≠ b -> slice.cells (<[a := l]> h) b = slice.cells h b.
Proof. intros Hab. unfold slice.cells. by rewrite list_lookup_insert_ne. Qed.

Lemma cells_outside h a : length h ≤ a -> slice.cells h a = [].
Proof. intros Ha. unfold slice.cells. by rewrite lookup_ge_None_2. Qed.

Lemma cells_app_old h a (l : list attribute.KeyValue) :
  a < length h -> slice.cells (h ++ [l]) a = slice.cells h a.
Proof. intros Ha. unfold slice.cells. by rewrite lookup_app_l. Qed.

Lemma cells_app_new h (l : list attribute.KeyValue) :
  slice.cells (h ++ [l]) (length h) = l.
Proof. unfold slice.cells. by rewrite list_lookup_middle. Qed.

Lemma cells_inside h a : 0 < length (slice.cells h a) -> a < length h.
Proof.
  intros Hl. destruct (decide (a < length h)) as [|Hge]; [done |].
  rewrite cells_outside in Hl by lia. simpl in Hl. lia.
Qed.

Lemma elems_length h s : slice.valid h s -> length (slice.elems h s) = slice.len s.
Proof.
  intros [Hlen Hcap]. unfold slice.elems. rewrite length_take, length_drop. lia.
Qed.

Lemma elems_empty h : slice.elems h slice.empty = [].
Proof. reflexivity. Qed.

Lemma valid_empty h : slice.valid h slice.empty.
Proof. split; simpl; lia. Qed.

Lemma below_refl s : below s s.
Proof. right. lia. Qed.

(** [append] returns a slice that reads as the old elements followed by
    the new one. *)
Lemma append_elems h s x s' h' :
  slice.valid h s ->
  slice.append growslice s x h = (s', h') ->
  slice.elems h' s' = slice.elems h s ++ [x] ∧ slice.valid h' s'.
Proof.
  intros [Hlen Hcap] Happ. unfold slice.append in Happ.
  destruct (decide (S (slice.len s) ≤ slice.cap s)) as [Hroom | Hfull];
    injection Happ as <- <-.
  - assert (Ha : slice.array s < length h) by (apply cells_inside; lia).
    unfold slice.elems, slice.valid. simpl. rewrite cells_insert_eq by done.
    split; [| rewrite length_insert; lia].
    rewrite drop_insert_ge by lia.
    replace (slice.offset s + slice.len s - slice.offset s) with (slice.len s) by lia.
    rewrite (take_S_r _ _ x).
    + by rewrite take_insert_ge.
    + apply list_lookup_insert_eq. rewrite length_drop. lia.
  - assert (Hl : length (slice.elems h s) = slice.len s) by by apply elems_length.
    unfold slice.valid. unfold slice.elems at 1. simpl.
    rewrite cells_app_new, drop_0. split.
    + rewrite (cons_middle x), app_assoc.
      apply take_app_length'. rewrite length_app, Hl. simpl. lia.
    + rewrite length_app, Hl. simpl. rewrite length_replicate. lia.
Qed.

(** [append] to [s] leaves every slice whose window ends before the cell
    it writes as it was. *)
Lemma append_frame h s t x s' h' :
  slice.valid h t ->
  below t s ->
  slice.append growslice s x h = (s', h') ->
  slice.elems h' t = slice.elems h t ∧ slice.valid h' t ∧ below t s'.
Proof.
  intros [Hlen Hcap] Hbelow Happ. unfold slice.append in Happ.
  destruct (decide (S (slice.len s) ≤ slice.cap s)) as [Hroom | Hfull];
    injection Happ as <- <-.
  - destruct (decide (slice.array t = slice.array s)) as [Heq | Hne].
    + destruct Hbelow as [Hne | Hle]; [done |].
      destruct (decide (slice.array s < length h)) as [Ha | Ha].
      * unfold slice.elems, slice.valid, below. simpl. rewrite Heq.
        rewrite cells_insert_eq by done. rewrite Heq in Hcap.
        split; [| split; [rewrite length_insert; lia | right; lia]].
        rewrite drop_insert_ge by lia. by rewrite take_insert_ge by lia.
      * rewrite list_insert_ge by lia.
        split; [done | split; [by split | right; simpl; lia]].
    + unfold slice.elems, slice.valid, below. simpl.
      rewrite cells_insert_ne by done.
      split; [done | split; [by split | by left]].
  - destruct (decide (slice.array t < length h)) as [Ha | Ha].
    + unfold slice.elems, slice.valid, below. simpl.
      rewrite cells_app_old by done.
      split; [done | split; [by split | left; lia]].
    + rewrite cells_outside in Hcap by lia. simpl in Hcap.
      assert (slice.offset t = 0 ∧ slice.len t = 0 ∧ slice.cap t = 0)
        as (Ho & Hl & Hc) by lia.
      unfold slice.elems, slice.valid, below. rewrite Ho, Hl, Hc. simpl.
      split; [done | split; [lia | right; lia]].
Qed.

End SliceProperties.

(** * Properties of the hooks *)

Section HookProperties.

Variable SpanFromContext : context.Context -> option trace.Span.
Variable growslice : nat -> nat -> nat.

Implicit Types (e : Env) (span : trace.Span) (operation : string).

(** [endTrace] when the scope holds no span: nothing happens. *)
Lemma endTrace_no_span e :
  (∀ span, span_slot (scope e) ≠ Some (gorm.OfSpan span)) ->
  endTrace growslice e = (Returned (), e).
Proof.
  intros Hslot. unfold endTrace, span_slot, gorm.Get in *. unfold_M.
  destruct (gorm.Settings (gorm.Statement_ (scope e)) !! spanScopeKey)
    as [[ctx | span | v] |]; simpl; try reflexivity.
  by destruct (Hslot span).
Qed.

(** [endTrace] when the scope holds a span: the two conditional appends,
    then the calls on the span. *)
Lemma endTrace_span e span :
  span_slot (scope e) = Some (gorm.OfSpan span) ->
  endTrace growslice e
  = (Returned (),
     mkEnv (scope e) (c_ e) (snd (built_attributes growslice e))
       (trace.mkBackend
          (calls_of e
           ++ trace.SetAttributes span
                (slice.elems (snd (built_attributes growslice e))
                   (fst (built_attributes growslice e)))
              :: expected_status span (gorm.Error (scope e)) ++ [trace.End_ span])
          (trace.next_span (tracing e)))).
Proof.
  intros Hslot.
  unfold endTrace, built_attributes, expected_status, span_slot, gorm.Get, calls_of in *.
  unfold_M. rewrite Hslot. cbn [negb assert_Span].
  destruct (table (c_ e)), (query (c_ e));
    repeat (cbn [fst snd scope c_ heap tracing trace.events trace.next_span];
            match goal with
            | |- context [slice.append ?g ?s ?x ?h] =>
                destruct (slice.append g s x h) as [? ?]
            end);
    cbn [fst snd scope c_ heap tracing trace.events trace.next_span];
    (destruct (gorm.Error (scope e)) as [err |];
     [destruct (errors.Is err gorm.ErrRecordNotFound) |]);
    cbn [fst snd scope c_ heap tracing trace.events trace.next_span];
    unfold emit, trace.record; simpl; by rewrite <- ?app_assoc.
Qed.

(** The slice [endTrace] builds reads as the specification's attribute set,
    and building it leaves the default attributes as they were. *)
Lemma built_attributes_spec e :
  slice.valid (heap e) (defaultAttributes (c_ e)) ->
  slice.elems (snd (built_attributes growslice e)) (fst (built_attributes growslice e))
  = expected_attributes e
  ∧ slice.elems (snd (built_attributes growslice e)) (defaultAttributes (c_ e))
    = slice.elems (heap e) (defaultAttributes (c_ e))
  ∧ slice.valid (snd (built_attributes growslice e)) (defaultAttributes (c_ e)).
Proof.
  intros Hvalid. unfold built_attributes, expected_attributes.
  pose proof (below_refl (defaultAttributes (c_ e))) as Hbelow.
  destruct (table (c_ e)).
  - destruct (slice.append growslice (defaultAttributes (c_ e)) _ (heap e))
      as [s1 h1] eqn:H1.
    destruct (append_elems _ _ _ _ _ _ Hvalid H1) as [He1 Hv1].
    destruct (append_frame _ _ _ _ _ _ _ Hvalid Hbelow H1) as (Hf1 & Hvd1 & Hb1).
    destruct (query (c_ e)).
    + destruct (slice.append growslice s1 _ h1) as [s2 h2] eqn:H2.
      destruct (append_elems _ _ _ _ _ _ Hv1 H2) as [He2 Hv2].
      destruct (append_frame _ _ _ _ _ _ _ Hvd1 Hb1 H2) as (Hf2 & Hvd2 & Hb2).
      simpl. rewrite He2, He1, Hf2, Hf1, <- app_assoc. done.
    + simpl. rewrite He1, Hf1, ?app_nil_r. done.
  - destruct (query (c_ e)).
    + destruct (slice.append growslice (defaultAttributes (c_ e)) _ (heap e))
        as [s2 h2] eqn:H2.
      destruct (append_elems _ _ _ _ _ _ Hvalid H2) as [He2 Hv2].
      destruct (append_frame _ _ _ _ _ _ _ Hvalid Hbelow H2) as (Hf2 & Hvd2 & Hb2).
      simpl. rewrite He2, Hf2. done.
    + simpl. by rewrite ?app_nil_r.
Qed.

(** [before] on the path that starts no span. *)
Lemma before_no_span operation e :
  allowRoot (c_ e) = false ->
  SpanFromContext (retrieved_context (scope e)) = None ->
  before SpanFromContext operation e
  = (Returned (),
     mkEnv (gorm.Set_ (scope e) contextScopeKey
              (gorm.OfContext (retrieved_context (scope e))))
       (c_ e) (heap e) (tracing e)).
Proof.
  intros Hroot Hparent. unfold before, startTrace, retrieved_context, gorm.Get in *.
  unfold_M.
  destruct (gorm.Settings (gorm.Statement_ (scope e)) !! contextScopeKey)
    as [[ctx | span | v] |]; simpl; rewrite Hparent, Hroot; reflexivity.
Qed.

(** [before] on the other path, taken when root spans are allowed or
    [SpanFromContext] gives a span, whatever span that is: the tracer is
    asked for a span, and the span and the extended context are put in the
    scope. *)
Lemma before_starts_span operation e (t : trace.Tracer) :
  allowRoot (c_ e) = true ∨ is_Some (SpanFromContext (retrieved_context (scope e))) ->
  tracer (c_ e) = Some t ->
  before SpanFromContext operation e
  = (Returned (),
     mkEnv
       (gorm.Set_
          (gorm.Set_ (scope e) spanScopeKey (gorm.OfSpan (trace.next_span (tracing e))))
          contextScopeKey
          (gorm.OfContext
             (trace.ContextWithSpan (retrieved_context (scope e))
                (trace.next_span (tracing e)))))
       (c_ e) (heap e)
       (trace.mkBackend
          (calls_of e
           ++ [trace.Start t (retrieved_context (scope e))
                 (fmt.Sprintf1 "gorm:" operation EmptyString) (spanOptions (c_ e))
                 (trace.next_span (tracing e))])
          (S (trace.next_span (tracing e))))).
Proof.
  intros Hpath Htracer.
  unfold before, startTrace, retrieved_context, gorm.Get, calls_of in *. unfold_M.
  assert (Hguard : ∀ ctx,
            allowRoot (c_ e) = true ∨ is_Some (SpanFromContext ctx) ->
            bool_decide (SpanFromContext ctx = None) && negb (allowRoot (c_ e)) = false).
  { intros ctx [-> | [span ->]]; [apply andb_false_r | reflexivity]. }
  destruct (gorm.Settings (gorm.Statement_ (scope e)) !! contextScopeKey)
    as [[ctx | span | v] |]; simpl; rewrite Hguard, Htracer by done; reflexivity.
Qed.

(** The same path with a nil tracer: the method call panics, and [before]
    with it, before anything is written. *)
Lemma before_nil_tracer operation e :
  allowRoot (c_ e) = true ∨ is_Some (SpanFromContext (retrieved_context (scope e))) ->
  tracer (c_ e) = None ->
  before SpanFromContext operation e = (Panicked nil_dereference, e).
Proof.
  intros Hpath Htracer.
  unfold before, startTrace, retrieved_context, gorm.Get in *. unfold_M.
  assert (Hguard : ∀ ctx,
            allowRoot (c_ e) = true ∨ is_Some (SpanFromContext ctx) ->
            bool_decide (SpanFromContext ctx = None) && negb (allowRoot (c_ e)) = false).
  { intros ctx [-> | [span ->]]; [apply andb_false_r | reflexivity]. }
  destruct (gorm.Settings (gorm.Statement_ (scope e)) !! contextScopeKey)
    as [[ctx | span | v] |]; simpl; rewrite Hguard, Htracer by done; reflexivity.
Qed.

(** [before] never ends a span, and touches neither the settings nor the
    heap. *)
Lemma before_frame operation e :
  c_ (snd (before SpanFromContext operation e)) = c_ e
  ∧ heap (snd (before SpanFromContext operation e)) = heap e
  ∧ ∃ new, calls_of (snd (before SpanFromContext operation e)) = calls_of e ++ new
           ∧ ended new = [].
Proof.
  unfold before, startTrace, gorm.Get, calls_of. unfold_M.
  destruct (gorm.Settings (gorm.Statement_ (scope e)) !! contextScopeKey)
    as [[ctx | span | v] |]; simpl;
    match goal with
    | |- context [bool_decide ?P] => destruct (bool_decide P)
    end;
    destruct (allowRoot (c_ e)), (tracer (c_ e)); simpl;
    (split; [done | split; [done |]]);
    first [ by exists []; rewrite app_nil_r | by eexists [_] ].
Qed.

(** [after] never touches the settings; it leaves the default attributes
    readable as before; and it ends at most one span. *)
Lemma after_frame e :
  c_ (snd (after growslice e)) = c_ e
  ∧ (slice.valid (heap e) (defaultAttributes (c_ e)) ->
     slice.elems (heap (snd (after growslice e))) (defaultAttributes (c_ e))
     = slice.elems (heap e) (defaultAttributes (c_ e))
     ∧ slice.valid (heap (snd (after growslice e))) (defaultAttributes (c_ e)))
  ∧ ∃ new, calls_of (snd (after growslice e)) = calls_of e ++ new
           ∧ length (ended new) ≤ 1
           ∧ ∀ span, span_slot (scope e) = Some (gorm.OfSpan span) ->
                     ended new = [span].
Proof.
  unfold after.
  destruct (span_slot (scope e)) as [[ctx | span | v] |] eqn:Hslot.
  2: { rewrite (endTrace_span e span Hslot). simpl.
       split; [done | split].
       - intros Hvalid. by destruct (built_attributes_spec e Hvalid) as (_ & ? & ?).
       - eexists. unfold calls_of at 1. simpl. split; [done |].
         assert (Hended : ended (trace.SetAttributes span
                   (slice.elems (snd (built_attributes growslice e))
                      (fst (built_attributes growslice e)))
                   :: expected_status span (gorm.Error (scope e)) ++ [trace.End_ span])
                 = [span]).
         { unfold expected_status.
           destruct (gorm.Error (scope e)) as [err |];
             [destruct (errors.Is err gorm.ErrRecordNotFound) |]; reflexivity. }
         rewrite Hended. split; [simpl; lia |]. by intros span' [= <-]. }
  all: rewrite endTrace_no_span by (rewrite Hslot; congruence); simpl;
    (split; [done | split; [done |]]);
    exists []; rewrite app_nil_r; (split; [done | split; [simpl; lia | congruence]]).
Qed.

Lemma context_key_is_not_span_key : contextScopeKey ≠ spanScopeKey.
Proof. discriminate. Qed.

(** C3: when [after] finds a span, the status calls it makes on it follow
    the error of the operation: none without an error, Error with
    "not found" for the record-not-found error, Unset with "unknown" for
    any other error. *)
Theorem status_follows_error e span :
  span_slot (scope e) = Some (gorm.OfSpan span) ->
  ∃ e' new,
    after growslice e = (Returned (), e')
    ∧ calls_of e' = calls_of e ++ new
    ∧ (gorm.Error (scope e) = None -> statuses new = [])
    ∧ (∀ err, gorm.Error (scope e) = Some err ->
              errors.Is err gorm.ErrRecordNotFound = true ->
              statuses new = [trace.SetStatus span codes.Error "not found"])
    ∧ (∀ err, gorm.Error (scope e) = Some err ->
              errors.Is err gorm.ErrRecordNotFound = false ->
              statuses new = [trace.SetStatus span codes.Unset "unknown"]).
Proof.
  intros Hslot. unfold after. rewrite (endTrace_span e span Hslot).
  eexists _, _. split; [reflexivity |]. unfold calls_of at 1. simpl.
  split; [reflexivity |]. unfold expected_status.
  split; [| split].
  - intros ->. reflexivity.
  - intros err -> ->. reflexivity.
  - intros err -> ->. reflexivity.
Qed.

(** C7 (amended): when [after] finds a span, it hands it, in one call made
    before the span is ended, exactly the default attributes in order, then
    "gorm.table" with the table of the statement if tables are recorded,
    then "gorm.query" with the text of the statement as [Statement.SQL]
    holds it if queries are recorded: the placeholders stay in the text, and
    the values bound to them have no part in what is attached. *)
Theorem attributes_attached_once e span :
  span_slot (scope e) = Some (gorm.OfSpan span) ->
  slice.valid (heap e) (defaultAttributes (c_ e)) ->
  ∃ e' status,
    after growslice e = (Returned (), e')
    ∧ calls_of e'
      = calls_of e
        ++ trace.SetAttributes span (expected_attributes e) :: status ++ [trace.End_ span]
    ∧ attached status = []
    ∧ ended status = []
    ∧ ∀ vars, calls_of (snd (after growslice (with_vars vars e))) = calls_of e'.
Proof.
  intros Hslot Hvalid. unfold after. rewrite (endTrace_span e span Hslot).
  destruct (built_attributes_spec e Hvalid) as (Hattrs & _ & _).
  eexists _, (expected_status span (gorm.Error (scope e))).
  split; [reflexivity |]. rewrite Hattrs. split; [reflexivity |].
  split; [| split].
  - unfold expected_status. destruct (gorm.Error (scope e)) as [err |];
      [destruct (errors.Is err gorm.ErrRecordNotFound) |]; reflexivity.
  - unfold expected_status. destruct (gorm.Error (scope e)) as [err |];
      [destruct (errors.Is err gorm.ErrRecordNotFound) |]; reflexivity.
  - intros vars. rewrite (endTrace_span (with_vars vars e) span Hslot).
    unfold calls_of. cbn [snd tracing trace.events]. rewrite <- Hattrs. reflexivity.
Qed.

(** C8: whatever hooks GORM invokes, and whatever it does to the scope in
    between, the settings stay as [RegisterCallbacks] left them, field by
    field; and the default attributes read through the slice stay the same,
    though [append] may write behind them in their array. *)
Theorem settings_never_mutated (acts : list action) e :
  c_ (run SpanFromContext growslice acts e) = c_ e
  ∧ (slice.valid (heap e) (defaultAttributes (c_ e)) ->
     slice.elems (heap (run SpanFromContext growslice acts e)) (defaultAttributes (c_ e))
     = slice.elems (heap e) (defaultAttributes (c_ e))).
Proof.
  enough (H : c_ (run SpanFromContext growslice acts e) = c_ e
              ∧ (slice.valid (heap e) (defaultAttributes (c_ e)) ->
                 slice.elems (heap (run SpanFromContext growslice acts e))
                   (defaultAttributes (c_ e))
                 = slice.elems (heap e) (defaultAttributes (c_ e))
                 ∧ slice.valid (heap (run SpanFromContext growslice acts e))
                     (defaultAttributes (c_ e)))).
  { destruct H as [Hc Hd]. split; [done |]. intros Hvalid. by apply Hd. }
  revert e. induction acts as [| a acts IH]; intros e; [done |].
  assert (Hstep : c_ (perform SpanFromContext growslice a e) = c_ e
                  ∧ (slice.valid (heap e) (defaultAttributes (c_ e)) ->
                     slice.elems (heap (perform SpanFromContext growslice a e))
                       (defaultAttributes (c_ e))
                     = slice.elems (heap e) (defaultAttributes (c_ e))
                     ∧ slice.valid (heap (perform SpanFromContext growslice a e))
                         (defaultAttributes (c_ e)))).
  { destruct a as [m | f]; [| done]. simpl.
    destruct m; simpl;
      first [ destruct (before_frame "create" e) as (Hc & -> & _); by rewrite Hc
            | destruct (before_frame "query" e) as (Hc & -> & _); by rewrite Hc
            | destruct (before_frame "update" e) as (Hc & -> & _); by rewrite Hc
            | destruct (before_frame "delete" e) as (Hc & -> & _); by rewrite Hc
            | destruct (after_frame e) as (Hc & Hd & _); by split ]. }
  destruct Hstep as [Hc Hd]. simpl.
  destruct (IH (perform SpanFromContext growslice a e)) as [IHc IHd].
  rewrite Hc in IHc, IHd. split; [done |].
  intros Hvalid. destruct (Hd Hvalid) as [Hd1 Hd2].
  destruct (IHd Hd2) as [IH1 IH2]. split; [congruence | done].
Qed.

(** C9: one invocation of [after] ends at most one span, and exactly the
    span it finds in the scope when it finds one, whatever the status; and
    over [before] followed by [after] no span is ended twice. *)
Theorem end_exactly_once :
  (∀ e, ∃ new,
      calls_of (snd (after growslice e)) = calls_of e ++ new
      ∧ length (ended new) ≤ 1
      ∧ ∀ span, span_slot (scope e) = Some (gorm.OfSpan span) -> ended new = [span])
  ∧ (∀ operation e,
      let e1 := snd (before SpanFromContext operation e) in
      ∃ new,
        calls_of (snd (after growslice e1)) = calls_of e ++ new
        ∧ NoDup (ended new)
        ∧ ∀ span, span_slot (scope e1) = Some (gorm.OfSpan span) -> ended new = [span]).
Proof.
  split.
  - intros e. by destruct (after_frame e) as (_ & _ & H).
  - intros operation e e1.
    destruct (before_frame operation e) as (_ & _ & new1 & Hnew1 & Hended1).
    destruct (after_frame e1) as (_ & _ & new2 & Hnew2 & Hlen & Hended2).
    exists (new1 ++ new2). subst e1. rewrite Hnew2, Hnew1, <- app_assoc.
    split; [done |]. unfold ended in *. rewrite omap_app, Hended1. simpl.
    split; [| done].
    destruct (omap _ new2) as [| span [| span' rest]]; simpl in Hlen;
      [constructor | | lia].
    apply NoDup_singleton.
Qed.

(** C10: a value under the span key that is not a span makes [after] return
    at once: the environment is unchanged, so nothing is attached, no status
    is set and no span is ended, the same as with an empty slot. *)
Theorem wrong_type_is_noop e (v : gorm.value) :
  span_slot (scope e) = Some v ->
  (∀ span, v ≠ gorm.OfSpan span) ->
  after growslice e = (Returned (), e)
  ∧ ∀ e0, span_slot (scope e0) = None -> after growslice e0 = (Returned (), e0).
Proof.
  intros Hslot Hv. unfold after. split.
  - apply endTrace_no_span. intros span. rewrite Hslot. intros [= ->]. by eapply Hv.
  - intros e0 Hslot0. apply endTrace_no_span. intros span. by rewrite Hslot0.
Qed.

End HookProperties.

Lemma status_follows_error_witness :
  let e := sample_env {[ spanScopeKey := gorm.OfSpan 7 ]}
             (Some (errors.Wrap "first" gorm.ErrRecordNotFound)) [] [] in
  span_slot (scope e) = Some (gorm.OfSpan 7)
  ∧ ∃ e' new,
      after sample_growslice e = (Returned (), e')
      ∧ calls_of e' = calls_of e ++ new
      ∧ statuses new = [trace.SetStatus 7 codes.Error "not found"].
Proof.
  intros e.
  assert (Hslot : span_slot (scope e) = Some (gorm.OfSpan 7)) by reflexivity.
  split; [exact Hslot |].
  destruct (status_follows_error sample_growslice e 7 Hslot)
    as (e' & new & Hafter & Hcalls & _ & Hfound & _).
  exists e', new. split; [exact Hafter | split; [exact Hcalls |]].
  apply (Hfound (errors.Wrap "first" gorm.ErrRecordNotFound)); reflexivity.
Defined.

Lemma sample_slice_valid : slice.valid sample_heap sample_slice.
Proof. split; simpl; lia. Defined.

Lemma attributes_attached_once_witness :
  let e := sample_env {[ spanScopeKey := gorm.OfSpan 7 ]} None
             [DefaultAttributes sample_slice; Table true; Query true] sample_heap in
  span_slot (scope e) = Some (gorm.OfSpan 7)
  ∧ slice.valid (heap e) (defaultAttributes (c_ e))
  ∧ ∃ e' status,
      after sample_growslice e = (Returned (), e')
      ∧ calls_of e'
        = trace.SetAttributes 7
            [ sample_default;
              attribute.String "gorm.table" "users";
              attribute.String "gorm.query" "SELECT * FROM users" ]
          :: status ++ [trace.End_ 7].
Proof.
  intros e.
  assert (Hslot : span_slot (scope e) = Some (gorm.OfSpan 7)) by reflexivity.
  split; [exact Hslot | split; [exact sample_slice_valid |]].
  destruct (attributes_attached_once sample_growslice e 7 Hslot sample_slice_valid)
    as (e' & status & Hafter & Hcalls & _).
  exists e', status. split; [exact Hafter | exact Hcalls].
Defined.

Lemma settings_never_mutated_witness :
  let e := sample_env ∅ None
             [AllowRoot true; DefaultAttributes sample_slice; Table true; Query true]
             sample_heap in
  let acts := [Invoke beforeCreate; Host (fun db => db); Invoke afterCreate] in
  let e' := run trace.SpanFromContext sample_growslice acts e in
  slice.valid (heap e) (defaultAttributes (c_ e))
  ∧ c_ e' = c_ e
  ∧ slice.elems (heap e') (defaultAttributes (c_ e)) = [sample_default]
  ∧ heap e' ≠ heap e.
Proof.
  intros e acts e'.
  split; [exact sample_slice_valid |].
  destruct (settings_never_mutated trace.SpanFromContext sample_growslice acts e)
    as [Hc Hd].
  split; [exact Hc | split; [exact (Hd sample_slice_valid) |]].
  discriminate.
Defined.

Lemma wrong_type_is_noop_witness :
  let e := sample_env {[ spanScopeKey := gorm.OfAny (VString "span") ]} None [] [] in
  span_slot (scope e) = Some (gorm.OfAny (VString "span"))
  ∧ (∀ span, gorm.OfAny (VString "span") ≠ gorm.OfSpan span)
  ∧ after sample_growslice e = (Returned (), e).
Proof.
  intros e.
  assert (Hslot : span_slot (scope e) = Some (gorm.OfAny (VString "span")))
    by reflexivity.
  assert (Hv : ∀ span, gorm.OfAny (VString "span") ≠ gorm.OfSpan span)
    by (intros span; discriminate).
  split; [exact Hslot | split; [exact Hv |]].
  exact (proj1 (wrong_type_is_noop sample_growslice e _ Hslot Hv)).
Defined.

(** * The definitions at work *)

Example string_value_is_an_error :
  CreateSpanAttribute 64 sample_FormatFloat "name" (VString "ada")
  = attribute.String "attribute.error" "couldn't convert ada into KeyValue".
Proof. reflexivity. Qed.

Example int8_has_no_case :
  CreateSpanAttribute 64 sample_FormatFloat "n" (VInt8 (-5))
  = attribute.String "attribute.error" "couldn't convert %!s(int8=-5) into KeyValue".
Proof. reflexivity. Qed.

Example nil_has_no_case :
  CreateSpanAttribute 64 sample_FormatFloat "n" VNil
  = attribute.String "attribute.error" "couldn't convert %!s(<nil>) into KeyValue".
Proof. reflexivity. Qed.

Example large_uint64_wraps :
  CreateSpanAttribute 64 sample_FormatFloat "n" (VUint64 (2 ^ 64 - 1))
  = attribute.Int64 "n" (-1).
Proof. reflexivity. Qed.

Example uint32_on_32_bits_wraps :
  CreateSpanAttribute 32 sample_FormatFloat "n" (VUint32 4000000000)
  = attribute.Int64 "n" (-294967296).
Proof. reflexivity. Qed.

Example float32_is_widened :
  CreateSpanAttribute 64 sample_FormatFloat "ratio" (VFloat32 (S754_finite false 3 (-1)))
  = attribute.Float64 "ratio" (S754_finite false 6755399441055744 (-52)).
Proof. reflexivity. Qed.

(** A query that finds no record, with root spans allowed and the table
    recorded. *)
Example traced_query_not_found :
  calls_of
    (run trace.SpanFromContext sample_growslice
       [ Invoke beforeQuery;
         Host (fun db => gorm.mkDB (gorm.Statement_ db) (Some gorm.ErrRecordNotFound));
         Invoke afterQuery ]
       (sample_env ∅ None [AllowRoot true; Table true] []))
  = [ trace.Start (trace.GlobalTracer "otgorm") context.Background "gorm:query"
        [trace.WithSpanKind trace.SpanKindInternal] 0;
      trace.SetAttributes 0 [attribute.String "gorm.table" "users"];
      trace.SetStatus 0 codes.Error "not found";
      trace.End_ 0 ].
Proof. reflexivity. Qed.

(** The same query with the built-in settings, root spans not allowed, and
    no span in the context: the span is started all the same. *)
Example root_span_without_allowRoot :
  calls_of
    (run trace.SpanFromContext sample_growslice
       [ Invoke beforeQuery;
         Host (fun db => gorm.mkDB (gorm.Statement_ db) (Some gorm.ErrRecordNotFound));
         Invoke afterQuery ]
       (sample_env ∅ None [] []))
  = [ trace.Start (trace.GlobalTracer "otgorm") context.Background "gorm:query"
        [trace.WithSpanKind trace.SpanKindInternal] 0;
      trace.SetAttributes 0 [];
      trace.SetStatus 0 codes.Error "not found";
      trace.End_ 0 ].
Proof. reflexivity. Qed.

(** A context that carries a span makes [before] start a child span though
    root spans are not allowed. *)
Example child_span_without_root :
  calls_of
    (run trace.SpanFromContext sample_growslice
       [Invoke beforeUpdate; Invoke afterUpdate]
       (sample_env
          {[ contextScopeKey :=
               gorm.OfContext (trace.ContextWithSpan context.Background 41) ]}
          None [] []))
  = [ trace.Start (trace.GlobalTracer "otgorm")
        (trace.ContextWithSpan context.Background 41) "gorm:update"
        [trace.WithSpanKind trace.SpanKindInternal] 0;
      trace.SetAttributes 0 [];
      trace.End_ 0 ].
Proof. reflexivity. Qed.

(** [endTrace] leaves the span in the scope: [after] run again on the same
    scope ends the same span again. *)
Example after_twice_ends_twice :
  ended
    (calls_of
       (run trace.SpanFromContext sample_growslice
          [Invoke beforeDelete; Invoke afterDelete; Invoke afterDelete]
          (sample_env ∅ None [AllowRoot true] [])))
  = [0; 0].
Proof. reflexivity. Qed.

(** The two appends of [endTrace] write in the array of the default
    attributes when it has room. *)
Example append_writes_behind_the_defaults :
  heap
    (run trace.SpanFromContext sample_growslice
       [Invoke beforeCreate; Invoke afterCreate]
       (sample_env ∅ None
          [AllowRoot true; DefaultAttributes sample_slice; Table true; Query true]
          sample_heap))
  = [[ sample_default;
       attribute.String "gorm.table" "users";
       attribute.String "gorm.query" "SELECT * FROM users" ]].
Proof. reflexivity. Qed.

(** * Further properties of the converter *)

Section ConverterBounds.

Local Open Scope Z_scope.

Variable IntSize : Z.
Variable FormatFloat : spec_float -> Z -> string.

Lemma pow2_double (w : Z) : 0 < w -> 2 ^ w = 2 * 2 ^ (w - 1).
Proof.
  intros Hw. replace w with (Z.succ (w - 1)) at 1 by lia. apply Z.pow_succ_r. lia.
Qed.

Lemma wrap_signed_range (w z : Z) :
  0 < w -> numeric.in_signed w (numeric.wrap_signed w z).
Proof.
  intros Hw. unfold numeric.in_signed, numeric.wrap_signed.
  pose proof (pow2_double w Hw) as Hp.
  assert (0 < 2 ^ (w - 1)) by (apply Z.pow_pos_nonneg; lia).
  pose proof (Z.mod_pos_bound (z + 2 ^ (w - 1)) (2 ^ w)). lia.
Qed.

Lemma wrap_signed_unsigned (w x : Z) :
  0 < w -> numeric.in_unsigned w x ->
  numeric.wrap_signed w x = reinterpret_signed w x.
Proof.
  intros Hw Hx. unfold numeric.in_unsigned, numeric.wrap_signed, reinterpret_signed in *.
  pose proof (pow2_double w Hw) as Hp.
  destruct (Z.ltb_spec x (2 ^ (w - 1))) as [Hlt | Hge].
  - rewrite Z.mod_small; lia.
  - replace (x + 2 ^ (w - 1)) with ((x - 2 ^ (w - 1)) + 1 * 2 ^ w) by lia.
    rewrite Z_mod_plus_full, Z.mod_small; lia.
Qed.

Lemma reinterpret_signed_range (w x : Z) :
  0 < w -> numeric.in_unsigned w x -> numeric.in_signed w (reinterpret_signed w x).
Proof.
  intros Hw Hx. rewrite <- wrap_signed_unsigned by done. by apply wrap_signed_range.
Qed.

(** X1: an unsigned value goes through a conversion to the signed type of
    the same width, so the upper half of its range comes out negative: a
    uint64 from 2^63 on, a uint from half its range on, and a uint32 from
    2^31 on where [int] has 32 bits. Where [int] has 64 bits a uint32 always
    keeps its value. *)
Theorem unsigned_values_wrap (k : string) (x : Z) :
  IntSize = 32 ∨ IntSize = 64 ->
  (numeric.in_unsigned 64 x ->
   CreateSpanAttribute IntSize FormatFloat k (VUint64 x)
   = attribute.Int64 k (reinterpret_signed 64 x))
  ∧ (numeric.in_unsigned IntSize x ->
     CreateSpanAttribute IntSize FormatFloat k (VUint x)
     = attribute.Int64 k (reinterpret_signed IntSize x))
  ∧ (numeric.in_unsigned 32 x ->
     CreateSpanAttribute IntSize FormatFloat k (VUint32 x)
     = attribute.Int64 k (if decide (IntSize = 64) then x
                          else reinterpret_signed 32 x)).
Proof.
  intros HS. split; [| split]; intros Hx; simpl; unfold attribute.Int, int, int64.
  - by rewrite wrap_signed_unsigned.
  - assert (0 < IntSize) by lia.
    rewrite (wrap_signed_unsigned IntSize) by done.
    f_equal. apply wrap_signed_id; [lia |].
    apply (in_signed_mono IntSize); [lia | lia |].
    by apply reinterpret_signed_range.
  - destruct (decide (IntSize = 64)) as [-> | Hne].
    + assert (Hs : numeric.in_signed 64 x).
      { unfold numeric.in_unsigned, numeric.in_signed in *. simpl in *. lia. }
      rewrite (wrap_signed_id 64 x) by (lia || done).
      by rewrite (wrap_signed_id 64 x) by (lia || done).
    + assert (IntSize = 32) as -> by lia.
      rewrite (wrap_signed_unsigned 32) by (done || lia).
      f_equal. apply wrap_signed_id; [lia |].
      apply (in_signed_mono 32); [lia | lia |].
      apply reinterpret_signed_range; [lia | done].
Qed.

(** X2: whatever well-typed value it is given, the converter returns an
    attribute that can be exported: its type is never [INVALID], its key is
    the key asked for or "attribute.error", and an integer in it lies in the
    range of a signed 64-bit number. *)
Theorem attribute_is_well_formed (k : string) (v : any) :
  well_typed IntSize v ->
  let kv := CreateSpanAttribute IntSize FormatFloat k v in
  attribute.Type_of (attribute.Value_ kv) ≠ attribute.INVALID
  ∧ (attribute.Key_ kv = k ∨ attribute.Key_ kv = "attribute.error")
  ∧ ∀ z, attribute.Value_ kv = attribute.Int64Value z -> numeric.in_signed 64 z.
Proof.
  intros Hwt kv. subst kv.
  destruct v; simpl in *; (split; [discriminate | split; [auto |]]);
    intros z; unfold attribute.Int, int64; simpl; intros [= <-];
    try (apply wrap_signed_range; lia); done.
Qed.

End ConverterBounds.

Lemma unsigned_values_wrap_witness :
  CreateSpanAttribute 64 sample_FormatFloat "rows" (VUint64 (2 ^ 64 - 1))
  = attribute.Int64 "rows" (-1).
Proof.
  assert (Hx : numeric.in_unsigned 64 (2 ^ 64 - 1)).
  { unfold numeric.in_unsigned. lia. }
  exact (proj1 (unsigned_values_wrap 64 sample_FormatFloat "rows" (2 ^ 64 - 1)
                  (or_intror eq_refl)) Hx).
Defined.

Lemma attribute_is_well_formed_witness :
  well_typed 64 (VInt64 (-9))
  ∧ attribute.Type_of
      (attribute.Value_ (CreateSpanAttribute 64 sample_FormatFloat "delta" (VInt64 (-9))))
    ≠ attribute.INVALID.
Proof.
  assert (Hwt : well_typed 64 (VInt64 (-9))).
  { unfold well_typed, numeric.in_signed. lia. }
  split; [exact Hwt |].
  exact (proj1 (attribute_is_well_formed 64 sample_FormatFloat "delta" (VInt64 (-9)) Hwt)).
Defined.

(** * Further properties of the hooks *)

Section HookBehaviour.

Variable SpanFromContext : context.Context -> option trace.Span.
Variable growslice : nat -> nat -> nat.

Implicit Types (e : Env) (span : trace.Span) (operation : string).

Lemma string_app_nil_r (s : string) : s +:+ EmptyString = s.
Proof.
  induction s as [| a s IH]; [done |].
  change (String a (s +:+ EmptyString) = String a s). by rewrite IH.
Qed.

Lemma span_name operation :
  fmt.Sprintf1 "gorm:" operation EmptyString = "gorm:" +:+ operation.
Proof. unfold fmt.Sprintf1. by rewrite string_app_nil_r. Qed.

Lemma not_starts_span e :
  ¬ starts_span SpanFromContext e ->
  allowRoot (c_ e) = false ∧ SpanFromContext (retrieved_context (scope e)) = None.
Proof.
  unfold starts_span. intros Hnot. split.
  - destruct (allowRoot (c_ e)); [destruct Hnot; by left | done].
  - destruct (SpanFromContext (retrieved_context (scope e))) as [span |]; [| done].
    destruct Hnot. right. by eexists.
Qed.

Lemma starts_span_dec e :
  starts_span SpanFromContext e ∨ ¬ starts_span SpanFromContext e.
Proof.
  unfold starts_span.
  destruct (allowRoot (c_ e)); [by left; left |].
  destruct (SpanFromContext (retrieved_context (scope e))) as [span |].
  - left. right. by eexists.
  - right. intros [? | [span ?]]; done.
Qed.

(** [after] leaves the scope, the settings and the span counter alone. *)
Lemma after_scope e :
  scope (snd (after growslice e)) = scope e
  ∧ trace.next_span (tracing (snd (after growslice e))) = trace.next_span (tracing e).
Proof.
  unfold after.
  destruct (span_slot (scope e)) as [[ctx | span | v] |] eqn:Hslot.
  2: { by rewrite (endTrace_span growslice e span Hslot). }
  all: by rewrite endTrace_no_span by (rewrite Hslot; congruence).
Qed.

(** The context and the span counter [before] leaves on the path that asks
    for a span. *)
Lemma before_span_effects operation e (t : trace.Tracer) :
  starts_span SpanFromContext e ->
  tracer (c_ e) = Some t ->
  ∃ e',
    before SpanFromContext operation e = (Returned (), e')
    ∧ calls_of e'
      = calls_of e
        ++ [trace.Start t (retrieved_context (scope e)) ("gorm:" +:+ operation)
              (spanOptions (c_ e)) (trace.next_span (tracing e))]
    ∧ retrieved_context (scope e')
      = trace.ContextWithSpan (retrieved_context (scope e)) (trace.next_span (tracing e))
    ∧ trace.next_span (tracing e') = S (trace.next_span (tracing e)).
Proof.
  intros Hpath Htracer.
  rewrite (before_starts_span SpanFromContext operation e t Hpath Htracer).
  eexists. split; [reflexivity |]. rewrite span_name.
  split; [reflexivity |]. split; [| reflexivity].
  unfold retrieved_context at 1. simpl. by rewrite lookup_insert_eq.
Qed.

(** X3: on the path that asks for a span, with a tracer at hand, [before]
    makes one call, [Start], on the configured tracer, with the context it
    retrieved, the name "gorm:" followed by the operation and the configured
    span options; it puts the span under the span key and the context
    extended with the span under the context key. *)
Theorem before_starts_named_span operation e (t : trace.Tracer) :
  starts_span SpanFromContext e ->
  tracer (c_ e) = Some t ->
  ∃ e',
    before SpanFromContext operation e = (Returned (), e')
    ∧ calls_of e'
      = calls_of e
        ++ [trace.Start t (retrieved_context (scope e)) ("gorm:" +:+ operation)
              (spanOptions (c_ e)) (trace.next_span (tracing e))]
    ∧ span_slot (scope e') = Some (gorm.OfSpan (trace.next_span (tracing e)))
    ∧ retrieved_context (scope e')
      = trace.ContextWithSpan (retrieved_context (scope e)) (trace.next_span (tracing e))
    ∧ trace.next_span (tracing e') = S (trace.next_span (tracing e)).
Proof.
  intros Hpath Htracer.
  rewrite (before_starts_span SpanFromContext operation e t Hpath Htracer).
  eexists. split; [reflexivity |]. rewrite span_name.
  split; [reflexivity |]. split; [| split; [| reflexivity]].
  - unfold span_slot. simpl.
    rewrite lookup_insert_ne by apply context_key_is_not_span_key.
    by rewrite lookup_insert_eq.
  - unfold retrieved_context at 1. simpl. by rewrite lookup_insert_eq.
Qed.

(** X4: the only panic of the hooks is the call on a nil tracer: [before]
    panics exactly when it is on the path that asks for a span and the
    tracer is nil, and has then written nothing; otherwise it returns; and
    [after] returns from every environment. *)
Theorem hooks_panic_only_without_tracer operation e :
  (starts_span SpanFromContext e ∧ tracer (c_ e) = None ->
   before SpanFromContext operation e = (Panicked nil_dereference, e))
  ∧ (¬ (starts_span SpanFromContext e ∧ tracer (c_ e) = None) ->
     ∃ e', before SpanFromContext operation e = (Returned (), e'))
  ∧ ∃ e', after growslice e = (Returned (), e').
Proof.
  split; [| split].
  - intros [Hpath Htracer]. by apply before_nil_tracer.
  - intros Hnot. destruct (starts_span_dec e) as [Hpath | Hpath].
    + destruct (tracer (c_ e)) as [t |] eqn:Htracer; [| by destruct Hnot].
      rewrite (before_starts_span SpanFromContext operation e t Hpath Htracer).
      by eexists.
    + destruct (not_starts_span e Hpath) as [Hroot Hparent].
      rewrite (before_no_span SpanFromContext operation e Hroot Hparent).
      by eexists.
  - unfold after.
    destruct (span_slot (scope e)) as [[ctx | span | v] |] eqn:Hslot.
    2: { rewrite (endTrace_span growslice e span Hslot). by eexists. }
    all: rewrite endTrace_no_span by (rewrite Hslot; congruence); by eexists.
Qed.

(** X5: [before] writes nothing of the scope but the values under its two
    keys: the table, the statement text, the error and every other setting
    are as they were; [after] writes nothing of the scope at all. *)
Theorem hooks_touch_only_their_keys operation e :
  gorm.Table (gorm.Statement_ (scope (snd (before SpanFromContext operation e))))
  = gorm.Table (gorm.Statement_ (scope e))
  ∧ gorm.SQL (gorm.Statement_ (scope (snd (before SpanFromContext operation e))))
    = gorm.SQL (gorm.Statement_ (scope e))
  ∧ gorm.Error (scope (snd (before SpanFromContext operation e))) = gorm.Error (scope e)
  ∧ (∀ key, key ≠ contextScopeKey -> key ≠ spanScopeKey ->
       gorm.Settings (gorm.Statement_ (scope (snd (before SpanFromContext operation e))))
         !! key
       = gorm.Settings (gorm.Statement_ (scope e)) !! key)
  ∧ scope (snd (after growslice e)) = scope e.
Proof.
  destruct (starts_span_dec e) as [Hpath | Hpath].
  - destruct (tracer (c_ e)) as [t |] eqn:Htracer.
    + rewrite (before_starts_span SpanFromContext operation e t Hpath Htracer). simpl.
      repeat split; try apply after_scope.
      intros key Hc Hs. by rewrite !lookup_insert_ne.
    + rewrite (before_nil_tracer SpanFromContext operation e Hpath Htracer). simpl.
      repeat split; apply after_scope.
  - destruct (not_starts_span e Hpath) as [Hroot Hparent].
    rewrite (before_no_span SpanFromContext operation e Hroot Hparent). simpl.
    repeat split; try apply after_scope.
    intros key Hc Hs. by rewrite lookup_insert_ne.
Qed.

(** X6: a span started by [before] is the span the matching [after] works
    on, whatever GORM does to the statement and the error in between as long
    as it keeps the settings of the scope: over the pair the backend sees
    [Start], then [SetAttributes] with the attribute set of the scope as
    GORM left it, then the status calls for its error, then [End], all for
    the one span. *)
Theorem started_span_is_ended operation e (t : trace.Tracer) (f : gorm.DB -> gorm.DB) :
  starts_span SpanFromContext e ->
  tracer (c_ e) = Some t ->
  slice.valid (heap e) (defaultAttributes (c_ e)) ->
  (∀ db, gorm.Settings (gorm.Statement_ (f db)) = gorm.Settings (gorm.Statement_ db)) ->
  let span := trace.next_span (tracing e) in
  let e2 := perform SpanFromContext growslice (Host f)
              (snd (before SpanFromContext operation e)) in
  calls_of (snd (after growslice e2))
  = calls_of e
    ++ [ trace.Start t (retrieved_context (scope e)) ("gorm:" +:+ operation)
           (spanOptions (c_ e)) span;
         trace.SetAttributes span (expected_attributes e2) ]
    ++ expected_status span (gorm.Error (scope e2))
    ++ [trace.End_ span].
Proof.
  intros Hpath Htracer Hvalid Hf span e2. subst e2.
  rewrite (before_starts_span SpanFromContext operation e t Hpath Htracer).
  cbn [snd perform scope c_ heap tracing]. rewrite span_name.
  match goal with |- calls_of (snd (after growslice ?x)) = _ => set (e2 := x) end.
  assert (Hslot : span_slot (scope e2) = Some (gorm.OfSpan span)).
  { unfold span_slot. subst e2. cbn [scope]. rewrite Hf. simpl.
    rewrite lookup_insert_ne by apply context_key_is_not_span_key.
    by rewrite lookup_insert_eq. }
  unfold after. rewrite (endTrace_span growslice e2 span Hslot). cbn [snd].
  destruct (built_attributes_spec growslice e2 Hvalid) as (-> & _ & _).
  unfold calls_of at 1 2. cbn [tracing trace.events]. subst e2. cbn [tracing trace.events].
  by rewrite <- !app_assoc.
Qed.

(** X7: [after] does not take the span out of the scope: run again on the
    same scope it finds the span again, and ends it a second time. *)
Theorem after_does_not_clear_span e span :
  span_slot (scope e) = Some (gorm.OfSpan span) ->
  span_slot (scope (snd (after growslice e))) = Some (gorm.OfSpan span)
  ∧ ∃ new,
      calls_of (snd (after growslice (snd (after growslice e)))) = calls_of e ++ new
      ∧ ended new = [span; span].
Proof.
  intros Hslot.
  assert (Hslot1 : span_slot (scope (snd (after growslice e))) = Some (gorm.OfSpan span)).
  { by rewrite (proj1 (after_scope e)). }
  split; [done |].
  destruct (after_frame growslice e) as (_ & _ & new1 & Hnew1 & _ & Hended1).
  destruct (after_frame growslice (snd (after growslice e)))
    as (_ & _ & new2 & Hnew2 & _ & Hended2).
  exists (new1 ++ new2). rewrite Hnew2, Hnew1, <- app_assoc. split; [done |].
  unfold ended in *. rewrite omap_app, (Hended1 span Hslot), (Hended2 span Hslot1). done.
Qed.

(** X8: [before] leaves the context with the span in the scope and [after]
    does not put the old context back: with a tracing library whose
    [SpanFromContext] gives back the span of [ContextWithSpan], the next
    [before] on the same scope starts its span in the context of the
    earlier, ended span, whether or not root spans are allowed. *)
Theorem later_operation_nests_under_earlier operation operation' e (t : trace.Tracer) :
  (∀ ctx span, SpanFromContext (trace.ContextWithSpan ctx span) = Some span) ->
  starts_span SpanFromContext e ->
  tracer (c_ e) = Some t ->
  let e2 := snd (after growslice (snd (before SpanFromContext operation e))) in
  ∃ e3,
    before SpanFromContext operation' e2 = (Returned (), e3)
    ∧ calls_of e3
      = calls_of e2
        ++ [trace.Start t
              (trace.ContextWithSpan (retrieved_context (scope e))
                 (trace.next_span (tracing e)))
              ("gorm:" +:+ operation') (spanOptions (c_ e))
              (S (trace.next_span (tracing e)))].
Proof.
  intros Hsfc Hpath Htracer e2.
  destruct (before_span_effects operation e t Hpath Htracer)
    as (e1 & Hbefore & _ & Hctx & Hnext).
  assert (He1 : snd (before SpanFromContext operation e) = e1) by by rewrite Hbefore.
  assert (Hc1 : c_ e1 = c_ e).
  { rewrite <- He1. apply (before_frame SpanFromContext operation e). }
  assert (Hscope : scope e2 = scope e1).
  { subst e2. rewrite He1. apply after_scope. }
  assert (Hnext2 : trace.next_span (tracing e2) = S (trace.next_span (tracing e))).
  { subst e2. rewrite He1, (proj2 (after_scope e1)). exact Hnext. }
  assert (Hc2 : c_ e2 = c_ e).
  { subst e2. rewrite He1, (proj1 (after_frame growslice e1)). exact Hc1. }
  assert (Hpath2 : starts_span SpanFromContext e2).
  { right. rewrite Hscope, Hctx, Hsfc. by eexists. }
  destruct (before_span_effects operation' e2 t Hpath2) as (e3 & H3 & Hcalls & _).
  { by rewrite Hc2. }
  exists e3. split; [done |]. by rewrite Hcalls, Hscope, Hctx, Hc2, Hnext2.
Qed.

(** [append] to a slice on the newest array of the heap, or to a full
    slice, keeps the older arrays. *)
Lemma append_extends (h k : slice.Heap) (s s' : slice.t) (x : attribute.KeyValue)
    (h' : slice.Heap) :
  slice.len s = slice.cap s ∨ length h ≤ slice.array s ->
  slice.append growslice s x (h ++ k) = (s', h') ->
  ∃ k', h' = h ++ k' ∧ (slice.len s' = slice.cap s' ∨ length h ≤ slice.array s').
Proof.
  intros Hs Happ. unfold slice.append in Happ.
  destruct (decide (S (slice.len s) ≤ slice.cap s)) as [Hroom | Hfull];
    injection Happ as <- <-.
  - destruct Hs as [Hs | Hs]; [lia |].
    rewrite insert_app_r_alt by done. eexists. split; [done |]. by right.
  - rewrite <- app_assoc. eexists. split; [done |]. right. simpl.
    rewrite length_app. lia.
Qed.

(** X9: when the default attributes fill their array (length equal to
    capacity, as for a slice literal), or when neither the table nor the
    query is recorded, [after] writes in no array that was there before: the
    heap it leaves is the old heap with, at most, new arrays after it. *)
Theorem full_defaults_are_never_written e :
  slice.len (defaultAttributes (c_ e)) = slice.cap (defaultAttributes (c_ e))
  ∨ (table (c_ e) = false ∧ query (c_ e) = false) ->
  ∃ fresh : slice.Heap, heap (snd (after growslice e)) = heap e ++ fresh.
Proof.
  intros Hfull. unfold after.
  destruct (span_slot (scope e)) as [[ctx | span | v] |] eqn:Hslot.
  2: { rewrite (endTrace_span growslice e span Hslot). cbn [snd heap].
       unfold built_attributes.
       destruct Hfull as [Hfull | [-> ->]]; [| exists []; by rewrite app_nil_r].
       destruct (table (c_ e)).
       - destruct (slice.append growslice (defaultAttributes (c_ e)) _ (heap e))
           as [s1 h1] eqn:H1.
         rewrite <- (app_nil_r (heap e)) in H1.
         destruct (append_extends _ _ _ _ _ _ (or_introl Hfull) H1) as (k1 & -> & Hs1).
         destruct (query (c_ e)); [| by exists k1].
         destruct (slice.append growslice s1 _ (heap e ++ k1)) as [s2 h2] eqn:H2.
         destruct (append_extends _ _ _ _ _ _ Hs1 H2) as (k2 & -> & _). by exists k2.
       - destruct (query (c_ e)); [| exists []; by rewrite app_nil_r].
         destruct (slice.append growslice (defaultAttributes (c_ e)) _ (heap e))
           as [s2 h2] eqn:H2.
         rewrite <- (app_nil_r (heap e)) in H2.
         destruct (append_extends _ _ _ _ _ _ (or_introl Hfull) H2) as (k2 & -> & _).
         by exists k2. }
  all: rewrite endTrace_no_span by (rewrite Hslot; congruence);
    exists []; by rewrite app_nil_r.
Qed.

(** [append] with room left writes the cell behind the slice. *)
Lemma append_in_place (h : slice.Heap) (s : slice.t) (x : attribute.KeyValue) :
  S (slice.len s) ≤ slice.cap s ->
  slice.append growslice s x h
  = (slice.mk (slice.array s) (slice.offset s) (S (slice.len s)) (slice.cap s),
     <[slice.array s :=
         <[slice.offset s + slice.len s := x]> (slice.cells h (slice.array s))]> h).
Proof. intros Hroom. unfold slice.append. by rewrite decide_True. Qed.

(** [append] keeps every cell but the one behind the slice. *)
Lemma append_keeps_cell (h : slice.Heap) (s s' : slice.t) (x v : attribute.KeyValue)
    (h' : slice.Heap) (a i : nat) :
  slice.cells h a !! i = Some v ->
  slice.array s ≠ a ∨ i ≠ slice.offset s + slice.len s ->
  slice.append growslice s x h = (s', h') ->
  slice.cells h' a !! i = Some v.
Proof.
  intros Hcell Hother Happ.
  assert (Ha : a < length h).
  { apply cells_inside. apply lookup_lt_Some in Hcell. lia. }
  unfold slice.append in Happ.
  destruct (decide (S (slice.len s) ≤ slice.cap s)) as [Hroom | Hfull];
    injection Happ as <- <-.
  - destruct (decide (slice.array s = a)) as [Heq | Hne].
    + destruct Hother as [? | Hi]; [done |]. rewrite Heq.
      rewrite cells_insert_eq by done. by rewrite list_lookup_insert_ne.
    + by rewrite cells_insert_ne.
  - by rewrite cells_app_old.
Qed.

(** X10: when the array of the default attributes has room behind them and
    something is recorded, [after] writes there: the cell right behind the
    default attributes then holds the first recorded attribute, the table
    if tables are recorded and the query otherwise. *)
Theorem spare_capacity_is_written e span :
  span_slot (scope e) = Some (gorm.OfSpan span) ->
  slice.valid (heap e) (defaultAttributes (c_ e)) ->
  slice.len (defaultAttributes (c_ e)) < slice.cap (defaultAttributes (c_ e)) ->
  table (c_ e) || query (c_ e) = true ->
  slice.cells (heap (snd (after growslice e))) (slice.array (defaultAttributes (c_ e)))
    !! (slice.offset (defaultAttributes (c_ e)) + slice.len (defaultAttributes (c_ e)))
  = Some (if table (c_ e)
          then attribute.Key_String TableKey (gorm.Table (gorm.Statement_ (scope e)))
          else attribute.Key_String QueryKey (gorm.SQL (gorm.Statement_ (scope e)))).
Proof.
  intros Hslot [Hlen Hcap] Hroom Hrec. unfold after.
  rewrite (endTrace_span growslice e span Hslot). cbn [snd heap].
  unfold built_attributes.
  set (d := defaultAttributes (c_ e)) in *.
  assert (Ha : slice.array d < length (heap e)) by (apply cells_inside; lia).
  assert (Hfirst : ∀ x,
            slice.cells (<[slice.array d :=
                             <[slice.offset d + slice.len d := x]>
                               (slice.cells (heap e) (slice.array d))]> (heap e))
              (slice.array d)
              !! (slice.offset d + slice.len d) = Some x).
  { intros x. rewrite cells_insert_eq by done. apply list_lookup_insert_eq. lia. }
  destruct (table (c_ e)).
  - rewrite (append_in_place (heap e) d) by lia.
    destruct (query (c_ e)); [| apply Hfirst].
    match goal with
    | |- context [slice.append growslice ?s1 ?y ?h1] =>
        destruct (slice.append growslice s1 y h1) as [s2 h2] eqn:H2
    end.
    cbn [snd]. eapply append_keeps_cell; [apply Hfirst | | exact H2].
    right. simpl. lia.
  - simpl in Hrec. rewrite Hrec.
    rewrite (append_in_place (heap e) d) by lia. apply Hfirst.
Qed.

Lemma invocations_cons (p : method -> bool) (a : action) (acts : list action) :
  invocations p (a :: acts) = (if invokes p a then 1 else 0) + invocations p acts.
Proof.
  unfold invocations. rewrite filter_cons.
  destruct (invokes p a); by case_decide.
Qed.

(** The calls one action adds. *)
Lemma perform_calls (a : action) e :
  ∃ new,
    calls_of (perform SpanFromContext growslice a e) = calls_of e ++ new
    ∧ length (started new) ≤ (if invokes is_before a then 1 else 0)
    ∧ length (ended new) ≤ (if invokes is_after a then 1 else 0)
    ∧ length (attached new) = length (ended new)
    ∧ length (statuses new) ≤ length (ended new).
Proof.
  assert (Hbefore : ∀ operation, ∃ new,
            calls_of (snd (before SpanFromContext operation e)) = calls_of e ++ new
            ∧ length (started new) ≤ 1 ∧ length (ended new) ≤ 0
            ∧ length (attached new) = length (ended new)
            ∧ length (statuses new) ≤ length (ended new)).
  { intros operation. destruct (starts_span_dec e) as [Hpath | Hpath].
    - destruct (tracer (c_ e)) as [t |] eqn:Htracer.
      + rewrite (before_starts_span SpanFromContext operation e t Hpath Htracer).
        eexists [_]. split; [reflexivity |]. simpl. lia.
      + rewrite (before_nil_tracer SpanFromContext operation e Hpath Htracer).
        exists []. rewrite app_nil_r. simpl. split; [done | lia].
    - destruct (not_starts_span e Hpath) as [Hroot Hparent].
      rewrite (before_no_span SpanFromContext operation e Hroot Hparent).
      exists []. rewrite app_nil_r. simpl. split; [done | lia]. }
  assert (Hafter : ∃ new,
            calls_of (snd (after growslice e)) = calls_of e ++ new
            ∧ length (started new) ≤ 0 ∧ length (ended new) ≤ 1
            ∧ length (attached new) = length (ended new)
            ∧ length (statuses new) ≤ length (ended new)).
  { unfold after.
    destruct (span_slot (scope e)) as [[ctx | span | v] |] eqn:Hslot.
    2: { rewrite (endTrace_span growslice e span Hslot).
         eexists. split; [reflexivity |]. unfold expected_status.
         destruct (gorm.Error (scope e)) as [err |];
           [destruct (errors.Is err gorm.ErrRecordNotFound) |]; simpl; lia. }
    all: rewrite endTrace_no_span by (rewrite Hslot; congruence);
      exists []; rewrite app_nil_r; simpl; (split; [done | lia]). }
  destruct a as [m | f].
  - destruct m; simpl;
      match goal with
      | |- context [before _ ?op] =>
          destruct (Hbefore op) as (new & ? & ? & ? & ? & ?)
      | _ => destruct Hafter as (new & ? & ? & ? & ? & ?)
      end; exists new; repeat split; (done || lia).
  - exists []. simpl. unfold calls_of. simpl. rewrite app_nil_r. repeat split; lia.
Qed.

(** X11: over any sequence of hook invocations and host steps, the backend
    sees no more [Start] calls than there were invocations of a before
    hook and no more [End] calls than invocations of an after hook; every
    [End] comes with exactly one [SetAttributes], and with at most one
    [SetStatus]. *)
Theorem calls_are_bounded_by_invocations (acts : list action) e :
  ∃ new,
    calls_of (run SpanFromContext growslice acts e) = calls_of e ++ new
    ∧ length (started new) ≤ invocations is_before acts
    ∧ length (ended new) ≤ invocations is_after acts
    ∧ length (attached new) = length (ended new)
    ∧ length (statuses new) ≤ length (ended new).
Proof.
  revert e. induction acts as [| a acts IH]; intros e.
  - exists []. simpl. rewrite app_nil_r. repeat split; lia.
  - destruct (perform_calls a e) as (new1 & Hc1 & Hs1 & He1 & Ha1 & Ht1).
    destruct (IH (perform SpanFromContext growslice a e))
      as (new2 & Hc2 & Hs2 & He2 & Ha2 & Ht2).
    exists (new1 ++ new2). simpl. rewrite Hc2, Hc1, <- app_assoc.
    rewrite !invocations_cons. unfold started, ended, attached, statuses in *.
    rewrite !omap_app, !length_app. repeat split; lia.
Qed.

(** X12: whatever the options, [RegisterCallbacks] registers eight hooks
    under eight different names, a before and an after hook for each of the
    four processors; a before hook is anchored before the GORM callback
    "gorm:" followed by the operation and runs [before] with that operation,
    so that the span it starts carries the anchor as its name; an after hook
    is anchored after the same callback and runs [after]. *)
Theorem registered_hooks_match_their_anchor (opts : list Option) :
  let regs := snd (RegisterCallbacks opts) in
  length regs = 8
  ∧ NoDup (reg_name <$> regs)
  ∧ NoDup ((fun r => (reg_processor r, reg_position r)) <$> regs)
  ∧ ∀ r, r ∈ regs ->
      match reg_position r with
      | gorm.Before anchor =>
          anchor = "gorm:" +:+ processor_name (reg_processor r)
          ∧ reg_name r = "before_" +:+ processor_name (reg_processor r)
          ∧ call SpanFromContext growslice (reg_fn r)
            = before SpanFromContext (processor_name (reg_processor r))
      | gorm.After anchor =>
          anchor = "gorm:" +:+ processor_name (reg_processor r)
          ∧ reg_name r = "after_" +:+ processor_name (reg_processor r)
          ∧ call SpanFromContext growslice (reg_fn r) = after growslice
      end.
Proof.
  simpl. split; [done |]. split; [| split].
  - repeat (apply NoDup_cons;
            split; [rewrite ?elem_of_cons, elem_of_nil; intuition discriminate |]).
    apply NoDup_nil_2.
  - repeat (apply NoDup_cons;
            split; [rewrite ?elem_of_cons, elem_of_nil; intuition discriminate |]).
    apply NoDup_nil_2.
  - intros r Hr. repeat (apply elem_of_cons in Hr as [-> | Hr]; [by simpl |]).
    by apply elem_of_nil in Hr.
Qed.

Lemma errors_Is_wrapped (texts : list string) (target : errors.error) :
  errors.Is (foldr errors.Wrap target texts) target = true.
Proof.
  induction texts as [| text texts IH]; simpl.
  - destruct target; simpl; by rewrite decide_True.
  - case_decide; [done | exact IH].
Qed.

(** X13: the status looks through wrapping and not at texts: the
    record-not-found error wrapped any number of times still gives Error
    with "not found", while another error with the very text of the
    record-not-found error gives Unset with "unknown". *)
Theorem not_found_is_seen_through_wrapping e span (texts : list string) (text : string) :
  span_slot (scope e) = Some (gorm.OfSpan span) ->
  (gorm.Error (scope e) = Some (foldr errors.Wrap gorm.ErrRecordNotFound texts) ->
   ∃ attrs,
     calls_of (snd (after growslice e))
     = calls_of e
       ++ [ trace.SetAttributes span attrs;
            trace.SetStatus span codes.Error "not found";
            trace.End_ span ])
  ∧ (gorm.Error (scope e) = Some (foldr errors.Wrap (errors.Plain text) texts) ->
     ∃ attrs,
       calls_of (snd (after growslice e))
       = calls_of e
         ++ [ trace.SetAttributes span attrs;
              trace.SetStatus span codes.Unset "unknown";
              trace.End_ span ]).
Proof.
  intros Hslot. unfold after. rewrite (endTrace_span growslice e span Hslot).
  unfold calls_of at 1 3. cbn [snd tracing trace.events]. split; intros ->.
  - eexists. unfold expected_status. by rewrite errors_Is_wrapped.
  - eexists. unfold expected_status.
    assert (Hno : errors.Is (foldr errors.Wrap (errors.Plain text) texts)
                    gorm.ErrRecordNotFound = false).
    { induction texts as [| w texts IH]; simpl; [done | exact IH]. }
    by rewrite Hno.
Qed.

(** The calls of one disciplined operation: every span it starts it ends. *)
Lemma operation_balanced (o : operation_run) e :
  disciplined o ->
  ∃ new,
    calls_of (run SpanFromContext growslice (operation_actions o) e) = calls_of e ++ new
    ∧ ended new = started new.
Proof.
  intros (Hfresh & Hb & Ha & Hkeep). unfold operation_actions, run. simpl.
  set (e0 := mkEnv (run_scope o) (c_ e) (heap e) (tracing e)).
  assert (Hcall_b : ∃ operation,
            call SpanFromContext growslice (run_before o) = before SpanFromContext operation).
  { destruct (run_before o); try discriminate; by eexists. }
  assert (Hcall_a : call SpanFromContext growslice (run_after o) = after growslice).
  { destruct (run_after o); try discriminate; done. }
  destruct Hcall_b as [operation ->]. rewrite Hcall_a.
  assert (Hnone : ∀ sc, sc = run_scope o ∨
                        (∃ ctx, sc = gorm.Set_ (run_scope o) contextScopeKey ctx) ->
            span_slot (run_statement o sc) = None).
  { intros sc Hsc. unfold span_slot. rewrite Hkeep.
    destruct Hsc as [-> | [ctx ->]]; [exact Hfresh |]. simpl.
    rewrite lookup_insert_ne by apply context_key_is_not_span_key. exact Hfresh. }
  destruct (starts_span_dec e0) as [Hpath | Hpath].
  - destruct (tracer (c_ e0)) as [t |] eqn:Htracer.
    + rewrite (before_starts_span SpanFromContext operation e0 t Hpath Htracer).
      cbn [snd scope c_ heap tracing].
      match goal with |- context [after growslice ?x] => set (e2 := x) end.
      assert (Hslot : span_slot (scope e2) = Some (gorm.OfSpan (trace.next_span (tracing e)))).
      { unfold span_slot. subst e2. cbn [scope]. rewrite Hkeep. simpl.
        rewrite lookup_insert_ne by apply context_key_is_not_span_key.
        by rewrite lookup_insert_eq. }
      unfold after. rewrite (endTrace_span growslice e2 _ Hslot).
      unfold calls_of. subst e2 e0. cbn [snd tracing trace.events].
      rewrite <- app_assoc. eexists. split; [reflexivity |].
      unfold expected_status.
      destruct (gorm.Error _) as [err |];
        [destruct (errors.Is err gorm.ErrRecordNotFound) |]; reflexivity.
    + rewrite (before_nil_tracer SpanFromContext operation e0 Hpath Htracer).
      cbn [snd]. unfold after. rewrite endTrace_no_span.
      * exists []. unfold calls_of. simpl. by rewrite app_nil_r.
      * intros span. subst e0. cbn [scope]. rewrite Hnone by by left. done.
  - destruct (not_starts_span e0 Hpath) as [Hroot Hparent].
    rewrite (before_no_span SpanFromContext operation e0 Hroot Hparent).
    cbn [snd]. unfold after. rewrite endTrace_no_span.
    + exists []. unfold calls_of. simpl. by rewrite app_nil_r.
    + intros span. subst e0. cbn [scope]. rewrite Hnone; [done |]. right. by eexists.
Qed.

(** X15: under GORM's discipline (a scope per operation that starts
    without a span, before then after, the statement keeping the settings
    of the scope), over any number of operations run one after the other
    the spans ended are exactly the spans started, in the same order:
    every span the hooks start they end, once, and they end no other. *)
Theorem spans_are_balanced (ops : list operation_run) e :
  Forall disciplined ops ->
  ∃ new,
    calls_of (run SpanFromContext growslice (ops ≫= operation_actions) e)
    = calls_of e ++ new
    ∧ ended new = started new.
Proof.
  intros Hops. revert e. induction Hops as [| o ops Ho _ IH]; intros e.
  - exists []. simpl. by rewrite app_nil_r.
  - destruct (operation_balanced o e Ho) as (new1 & Hc1 & Hb1).
    destruct (IH (run SpanFromContext growslice (operation_actions o) e))
      as (new2 & Hc2 & Hb2).
    exists (new1 ++ new2). rewrite bind_cons. unfold run in *. rewrite foldl_app.
    rewrite Hc2, Hc1, <- app_assoc. split; [done |].
    unfold ended, started in *. by rewrite !omap_app, Hb1, Hb2.
Qed.

(** C1: the code does not keep this claim. The guard of [startTrace] tests
    the result of [SpanFromContext] against nil, and returns early only for
    nil. With a tracing library whose [SpanFromContext] is never nil, as
    the one the package imports, the guard never fires: with root spans
    disallowed and any context, also one without a span, [before] asks the
    tracer for a span and puts it in the scope, and the matching [after]
    attaches the attributes to it and ends it. *)
Theorem no_root_guard_never_fires operation e (t : trace.Tracer) :
  (∀ ctx, is_Some (SpanFromContext ctx)) ->
  allowRoot (c_ e) = false ->
  tracer (c_ e) = Some t ->
  slice.valid (heap e) (defaultAttributes (c_ e)) ->
  let span := trace.next_span (tracing e) in
  let e1 := snd (before SpanFromContext operation e) in
  span_slot (scope e1) = Some (gorm.OfSpan span)
  ∧ calls_of (snd (after growslice e1))
    = calls_of e
      ++ [ trace.Start t (retrieved_context (scope e)) ("gorm:" +:+ operation)
             (spanOptions (c_ e)) span;
           trace.SetAttributes span (expected_attributes e1) ]
      ++ expected_status span (gorm.Error (scope e))
      ++ [trace.End_ span].
Proof.
  intros Hnever Hroot Htracer Hvalid span e1.
  assert (Hpath : starts_span SpanFromContext e) by (right; apply Hnever).
  subst e1. rewrite (before_starts_span SpanFromContext operation e t Hpath Htracer).
  cbn [snd]. rewrite span_name.
  match goal with |- span_slot (scope ?x) = _ ∧ _ => set (e1 := x) end.
  assert (Hslot : span_slot (scope e1) = Some (gorm.OfSpan span)).
  { unfold span_slot. subst e1. simpl.
    rewrite lookup_insert_ne by apply context_key_is_not_span_key.
    by rewrite lookup_insert_eq. }
  split; [exact Hslot |].
  unfold after. rewrite (endTrace_span growslice e1 span Hslot). cbn [snd].
  destruct (built_attributes_spec growslice e1 Hvalid) as (-> & _ & _).
  unfold calls_of at 1 2. subst e1. cbn [tracing trace.events scope gorm.Error gorm.Set_].
  by rewrite <- !app_assoc.
Qed.

End HookBehaviour.

Lemma before_starts_named_span_witness :
  let e := sample_env ∅ None [AllowRoot true] [] in
  starts_span trace.SpanFromContext e
  ∧ tracer (c_ e) = Some (trace.GlobalTracer "otgorm")
  ∧ ∃ e',
      before trace.SpanFromContext "create" e = (Returned (), e')
      ∧ calls_of e'
        = [trace.Start (trace.GlobalTracer "otgorm") context.Background "gorm:create"
             [trace.WithSpanKind trace.SpanKindInternal] 0]
      ∧ span_slot (scope e') = Some (gorm.OfSpan 0).
Proof.
  intros e.
  assert (Hpath : starts_span trace.SpanFromContext e) by (left; reflexivity).
  assert (Htracer : tracer (c_ e) = Some (trace.GlobalTracer "otgorm")) by reflexivity.
  split; [exact Hpath | split; [exact Htracer |]].
  destruct (before_starts_named_span trace.SpanFromContext "create" e
              (trace.GlobalTracer "otgorm") Hpath Htracer)
    as (e' & Hbefore & Hcalls & Hslot & _).
  exists e'. split; [exact Hbefore | split; [exact Hcalls | exact Hslot]].
Defined.

Lemma empty_defaults_valid (h : slice.Heap) : slice.valid h slice.empty.
Proof. split; simpl; lia. Defined.

Lemma started_span_is_ended_witness :
  let e := sample_env ∅ None [AllowRoot true; Table true] [] in
  let f := fun db => gorm.mkDB (gorm.Statement_ db) (Some gorm.ErrRecordNotFound) in
  starts_span trace.SpanFromContext e
  ∧ tracer (c_ e) = Some (trace.GlobalTracer "otgorm")
  ∧ slice.valid (heap e) (defaultAttributes (c_ e))
  ∧ (∀ db, gorm.Settings (gorm.Statement_ (f db)) = gorm.Settings (gorm.Statement_ db))
  ∧ calls_of
      (snd (after sample_growslice
              (perform trace.SpanFromContext sample_growslice (Host f)
                 (snd (before trace.SpanFromContext "query" e)))))
    = [ trace.Start (trace.GlobalTracer "otgorm") context.Background "gorm:query"
          [trace.WithSpanKind trace.SpanKindInternal] 0;
        trace.SetAttributes 0 [attribute.String "gorm.table" "users"];
        trace.SetStatus 0 codes.Error "not found";
        trace.End_ 0 ].
Proof.
  intros e f.
  assert (Hpath : starts_span trace.SpanFromContext e) by (left; reflexivity).
  assert (Htracer : tracer (c_ e) = Some (trace.GlobalTracer "otgorm")) by reflexivity.
  assert (Hvalid : slice.valid (heap e) (defaultAttributes (c_ e)))
    by apply empty_defaults_valid.
  assert (Hf : ∀ db, gorm.Settings (gorm.Statement_ (f db))
                     = gorm.Settings (gorm.Statement_ db)) by reflexivity.
  split; [exact Hpath | split; [exact Htracer | split; [exact Hvalid | split; [exact Hf |]]]].
  rewrite (started_span_is_ended trace.SpanFromContext sample_growslice "query" e
             (trace.GlobalTracer "otgorm") f Hpath Htracer Hvalid Hf).
  reflexivity.
Defined.

Lemma after_does_not_clear_span_witness :
  let e := sample_env {[ spanScopeKey := gorm.OfSpan 7 ]} None [] [] in
  span_slot (scope e) = Some (gorm.OfSpan 7)
  ∧ span_slot (scope (snd (after sample_growslice e))) = Some (gorm.OfSpan 7).
Proof.
  intros e.
  assert (Hslot : span_slot (scope e) = Some (gorm.OfSpan 7)) by reflexivity.
  split; [exact Hslot |].
  exact (proj1 (after_does_not_clear_span sample_growslice e 7 Hslot)).
Defined.

Lemma later_operation_nests_under_earlier_witness :
  let e := sample_env
             {[ contextScopeKey :=
                  gorm.OfContext (trace.ContextWithSpan context.Background 41) ]}
             None [] [] in
  let e2 := snd (after sample_growslice (snd (before trace.SpanFromContext "create" e))) in
  (∀ ctx span, trace.SpanFromContext (trace.ContextWithSpan ctx span) = Some span)
  ∧ allowRoot (c_ e) = false
  ∧ starts_span trace.SpanFromContext e
  ∧ tracer (c_ e) = Some (trace.GlobalTracer "otgorm")
  ∧ ∃ e3,
      before trace.SpanFromContext "update" e2 = (Returned (), e3)
      ∧ calls_of e3
        = calls_of e2
          ++ [trace.Start (trace.GlobalTracer "otgorm")
                (trace.ContextWithSpan (trace.ContextWithSpan context.Background 41) 0)
                "gorm:update" [trace.WithSpanKind trace.SpanKindInternal] 1].
Proof.
  intros e e2.
  assert (Hsfc : ∀ ctx span,
            trace.SpanFromContext (trace.ContextWithSpan ctx span) = Some span)
    by reflexivity.
  assert (Hpath : starts_span trace.SpanFromContext e).
  { right. exists 41. reflexivity. }
  assert (Htracer : tracer (c_ e) = Some (trace.GlobalTracer "otgorm")) by reflexivity.
  split; [exact Hsfc | split; [reflexivity | split; [exact Hpath | split; [exact Htracer |]]]].
  exact (later_operation_nests_under_earlier trace.SpanFromContext sample_growslice
           "create" "update" e (trace.GlobalTracer "otgorm") Hsfc Hpath Htracer).
Defined.

Lemma full_defaults_are_never_written_witness :
  let e := sample_env {[ spanScopeKey := gorm.OfSpan 7 ]} None
             [Table true; Query true] sample_heap in
  slice.len (defaultAttributes (c_ e)) = slice.cap (defaultAttributes (c_ e))
  ∧ ∃ fresh : slice.Heap, heap (snd (after sample_growslice e)) = sample_heap ++ fresh.
Proof.
  intros e.
  assert (Hfull : slice.len (defaultAttributes (c_ e))
                  = slice.cap (defaultAttributes (c_ e))) by reflexivity.
  split; [exact Hfull |].
  exact (full_defaults_are_never_written sample_growslice e (or_introl Hfull)).
Defined.

Lemma spare_capacity_is_written_witness :
  let e := sample_env {[ spanScopeKey := gorm.OfSpan 7 ]} None
             [DefaultAttributes sample_slice; Table true] sample_heap in
  span_slot (scope e) = Some (gorm.OfSpan 7)
  ∧ slice.valid (heap e) (defaultAttributes (c_ e))
  ∧ slice.len (defaultAttributes (c_ e)) < slice.cap (defaultAttributes (c_ e))
  ∧ table (c_ e) || query (c_ e) = true
  ∧ slice.cells (heap (snd (after sample_growslice e))) 0 !! 1
    = Some (attribute.String "gorm.table" "users").
Proof.
  intros e.
  assert (Hslot : span_slot (scope e) = Some (gorm.OfSpan 7)) by reflexivity.
  assert (Hroom : slice.len (defaultAttributes (c_ e))
                  < slice.cap (defaultAttributes (c_ e))) by (simpl; lia).
  assert (Hrec : table (c_ e) || query (c_ e) = true) by reflexivity.
  split; [exact Hslot | split; [exact sample_slice_valid | split; [exact Hroom |]]].
  split; [exact Hrec |].
  exact (spare_capacity_is_written sample_growslice e 7 Hslot sample_slice_valid
           Hroom Hrec).
Defined.

Lemma not_found_is_seen_through_wrapping_witness :
  let err := errors.Wrap "find user" (errors.Wrap "load row" gorm.ErrRecordNotFound) in
  let e := sample_env {[ spanScopeKey := gorm.OfSpan 7 ]} (Some err) [] [] in
  span_slot (scope e) = Some (gorm.OfSpan 7)
  ∧ ∃ attrs,
      calls_of (snd (after sample_growslice e))
      = [ trace.SetAttributes 7 attrs;
          trace.SetStatus 7 codes.Error "not found";
          trace.End_ 7 ].
Proof.
  intros err e.
  assert (Hslot : span_slot (scope e) = Some (gorm.OfSpan 7)) by reflexivity.
  split; [exact Hslot |].
  exact (proj1 (not_found_is_seen_through_wrapping sample_growslice e 7
                  ["find user"; "load row"] "record not found" Hslot) eq_refl).
Defined.

Lemma spans_are_balanced_witness :
  let ops :=
    [ mkOperationRun (sample_scope ∅ None) beforeCreate (fun db => db) afterCreate;
      mkOperationRun (sample_scope ∅ None) beforeQuery
        (fun db => gorm.mkDB (gorm.Statement_ db) (Some gorm.ErrRecordNotFound))
        afterQuery ] in
  let e := sample_env ∅ None [AllowRoot true] [] in
  Forall disciplined ops
  ∧ ∃ new,
      calls_of (run trace.SpanFromContext sample_growslice (ops ≫= operation_actions) e)
      = calls_of e ++ new
      ∧ ended new = started new.
Proof.
  intros ops e.
  assert (Hops : Forall disciplined ops).
  { repeat constructor. }
  split; [exact Hops |].
  exact (spans_are_balanced trace.SpanFromContext sample_growslice ops e Hops).
Defined.

(** * Further properties of the options *)

Section OptionOrder.

Lemma apply_commutes (o1 o2 : option_call) (c : callbacks) :
  field_of o1 ≠ field_of o2 ->
  apply (to_Option o1) (apply (to_Option o2) c)
  = apply (to_Option o2) (apply (to_Option o1) c).
Proof. intros Hfield. destruct o1, o2; simpl in *; first [reflexivity | congruence]. Qed.

(** X16: the order of two options that write different fields does not
    matter: exchanging them where they stand next to each other in the
    sequence gives the same settings and the same registrations. *)
Theorem options_on_different_fields_commute (pre post : list option_call)
    (o1 o2 : option_call) :
  field_of o1 ≠ field_of o2 ->
  RegisterCallbacks (to_Option <$> pre ++ [o1; o2] ++ post)
  = RegisterCallbacks (to_Option <$> pre ++ [o2; o1] ++ post).
Proof.
  intros Hfield. unfold RegisterCallbacks. f_equal.
  rewrite !fmap_app, !foldl_app. simpl. f_equal. by apply apply_commutes.
Qed.

End OptionOrder.

Lemma options_on_different_fields_commute_witness :
  field_of (CallAllowRoot true) ≠ field_of (CallWithTracer None)
  ∧ RegisterCallbacks (to_Option <$> [CallTable true; CallAllowRoot true; CallWithTracer None])
    = RegisterCallbacks (to_Option <$> [CallTable true; CallWithTracer None; CallAllowRoot true]).
Proof.
  assert (Hfield : field_of (CallAllowRoot true) ≠ field_of (CallWithTracer None))
    by discriminate.
  split; [exact Hfield |].
  exact (options_on_different_fields_commute [CallTable true] []
           (CallAllowRoot true) (CallWithTracer None) Hfield).
Defined.

(** * More of the definitions at work *)

(** Two operations one after the other, each on its own scope: two spans,
    each ended once, the second a root span like the first. *)
Example two_operations_two_spans :
  let ops :=
    [ mkOperationRun (sample_scope ∅ None) beforeCreate (fun db => db) afterCreate;
      mkOperationRun (sample_scope ∅ None) beforeQuery (fun db => db) afterQuery ] in
  let new := calls_of (run trace.SpanFromContext sample_growslice
                         (ops ≫= operation_actions)
                         (sample_env ∅ None [AllowRoot true] [])) in
  started new = [0; 1] ∧ ended new = [0; 1].
Proof. split; reflexivity. Qed.

Lemma SpanFromContext_never_nil (ctx : context.Context) :
  is_Some (trace.SpanFromContext ctx).
Proof.
  unfold trace.SpanFromContext.
  destruct (context.Value ctx trace.currentSpanKey) as [[id | text] |]; by eexists.
Defined.

Lemma no_root_guard_never_fires_witness :
  let e := sample_env ∅ None [] [] in
  allowRoot (c_ e) = false
  ∧ trace.SpanFromContext (retrieved_context (scope e)) = Some trace.noopSpan
  ∧ tracer (c_ e) = Some (trace.GlobalTracer "otgorm")
  ∧ slice.valid (heap e) (defaultAttributes (c_ e))
  ∧ span_slot (scope (snd (before trace.SpanFromContext "create" e)))
    = Some (gorm.OfSpan 0)
  ∧ calls_of (snd (after sample_growslice (snd (before trace.SpanFromContext "create" e))))
    = [ trace.Start (trace.GlobalTracer "otgorm") context.Background "gorm:create"
          [trace.WithSpanKind trace.SpanKindInternal] 0;
        trace.SetAttributes 0 [];
        trace.End_ 0 ].
Proof.
  intros e.
  assert (Hroot : allowRoot (c_ e) = false) by reflexivity.
  assert (Htracer : tracer (c_ e) = Some (trace.GlobalTracer "otgorm")) by reflexivity.
  assert (Hvalid : slice.valid (heap e) (defaultAttributes (c_ e)))
    by apply empty_defaults_valid.
  split; [exact Hroot | split; [reflexivity | split; [exact Htracer |]]].
  split; [exact Hvalid |].
  destruct (no_root_guard_never_fires trace.SpanFromContext sample_growslice "create" e
              (trace.GlobalTracer "otgorm") SpanFromContext_never_nil Hroot Htracer Hvalid)
    as [Hslot Hcalls].
  split; [exact Hslot |]. rewrite Hcalls. reflexivity.
Defined.

Lemma query_attribute_keeps_placeholders :
  spec_rendered_query sample_FormatFloat sample_insert
  = "INSERT INTO users (name) VALUES ('ada')"
  ∧ attached (calls_of (snd (after sample_growslice sample_insert_env)))
    = [[attribute.String "gorm.query" "INSERT INTO users (name) VALUES (?)"]]
  ∧ attached (calls_of (snd (after sample_growslice sample_insert_env)))
    ≠ [[attribute.String "gorm.query"
          (spec_rendered_query sample_FormatFloat sample_insert)]].
Proof.
  split; [reflexivity | split; [reflexivity |]]. discriminate.
Qed.
